(** * CloudFront distribution helper of aws-solutions-constructs

    A shallow embedding of
    [core/lib/cloudfront-distribution-helper.ts]: the two entry points
    [CloudFrontDistributionForApiGateway] and [CloudFrontDistributionForS3]
    and the three private helpers they call, over a small model of the
    construct tree the CDK keeps while a stack is being defined.

    The framework is modelled by what the helper can observe of it: a
    constructor registers a construct under its id in the scope, and throws
    when the id is taken; the low-level resource of a construct records
    metadata and overrides, which synthesis applies to the rendered
    properties. What a framework constructor does beyond that is outside
    the model: validation of its properties, further constructs of its own
    (the distribution's own logging bucket when it is given a logging
    configuration without a bucket), and grants or role changes on the
    constructs its properties refer to. The theorems on a run therefore
    speak of what the helper itself registers, overrides and annotates. *)

From Stdlib Require Import Ascii.
From stdpp Require Import gmap strings list fin_maps.

Set Warnings "-register-all".

(** ** JavaScript values *)

(** A construct of the tree is named by its path from the root, as in
    [construct.node.path]. *)
Abbreviation path := (list string).

(** Deploy-time tokens: values that are only known to CloudFormation. *)
Inductive token :=
| TRef (resource : path)
| TAttr (resource : path) (attribute : string)
| TArnForObjects (bucket : path) (keyPattern : string).

Inductive value :=
| VUndefined
| VNull
| VBool (b : bool)
| VNum (z : Z)
| VStr (s : string)
| VTok (t : token)
| VRef (construct : path)
| VArr (items : list value)
| VObj (fields : gmap string value).

(** Truthiness, as used by [?:], [&&] and [if]. *)
Definition truthy (v : value) : bool :=
  match v with
  | VUndefined | VNull => false
  | VBool b => b
  | VNum z => negb (Z.eqb z 0)
  | VStr s => negb (String.eqb s "")
  | VTok _ | VRef _ | VArr _ | VObj _ => true
  end.

(** [v !== undefined] and [v === false]. *)
Definition isUndefined (v : value) : bool :=
  match v with VUndefined => true | _ => false end.

Definition strictEqFalse (v : value) : bool :=
  match v with VBool false => true | _ => false end.

(** Property read [v.k] on a value that is neither [undefined] nor [null];
    a property that is not there reads as [undefined]. *)
Definition getProp (v : value) (k : string) : value :=
  match v with
  | VObj o => default VUndefined (o !! k)
  | _ => VUndefined
  end.

Definition asArray (v : value) : list value :=
  match v with VArr l => l | _ => [] end.

Definition asObject (v : value) : gmap string value :=
  match v with VObj o => o | _ => ∅ end.

(** ** The construct tree *)

Inductive kind :=
| KBucket
| KBucketPolicy
| KFunction
| KVersion
| KDistribution
| KCfnOriginAccessIdentity
| KOriginAccessIdentity
| KRestApi.

Global Instance kind_eq_dec : EqDecision kind.
Proof. solve_decision. Defined.

Inductive Principal :=
| CanonicalUserPrincipal (canonicalUserId : token)
| ArnPrincipal (arn : token)
| AnyPrincipal.

Record PolicyStatement := {
  actions : list string;
  resources : list token;
  principals : list Principal
}.

(** The low-level CloudFormation resource behind a construct
    ([node.defaultChild], [node.findChild('Resource')]): its
    [cfnOptions.metadata] and the raw overrides recorded on it. *)
Record CfnResource := {
  cfnMetadata : value;
  rawOverrides : list (list string * value)
}.

Record Construct := {
  kind_of : kind;
  props : value;
  document : list PolicyStatement;
  defaultChild : CfnResource
}.

(** Every call into the framework that changes the tree is journaled, in
    the order in which the calls are made. *)
Inductive event :=
| Created (p : path) (k : kind)
| Overridden (p : path) (keyPath : list string) (v : value)
| MetadataSet (p : path)
| StatementAdded (p : path) (s : PolicyStatement).

Record world := {
  tree : gmap path Construct;
  journal : list event
}.

Inductive error :=
| DuplicateId (p : path)
| NoSuchConstruct (p : path)
| NotABucket (p : path).

Inductive result (A : Type) :=
| Ok (a : A)
| Err (e : error).
Arguments Ok {A} a.
Arguments Err {A} e.

(** State and exceptions: a framework call either throws or returns a value
    and the tree it leaves behind. *)
Definition M (A : Type) : Type := world -> result (A * world).

Definition ret {A} (a : A) : M A := fun w => Ok (a, w).

Definition bind {A B} (m : M A) (k : A -> M B) : M B :=
  fun w => match m w with
           | Ok (a, w') => k a w'
           | Err e => Err e
           end.

Declare Scope cdk_scope.
Delimit Scope cdk_scope with cdk.
Notation "x <- m ;; k" := (bind m (fun x => k))
  (at level 100, m at next level, right associativity) : cdk_scope.
Notation "m ;; k" := (bind m (fun _ => k))
  (at level 100, right associativity) : cdk_scope.
Open Scope cdk_scope.

Definition emptyResource : CfnResource :=
  {| cfnMetadata := VUndefined; rawOverrides := [] |}.

Definition mkConstruct (k : kind) (p : value) : Construct :=
  {| kind_of := k; props := p; document := []; defaultChild := emptyResource |}.

Definition withChild (f : CfnResource -> CfnResource) (c : Construct) : Construct :=
  {| kind_of := kind_of c; props := props c; document := document c;
     defaultChild := f (defaultChild c) |}.

Definition withStatement (s : PolicyStatement) (c : Construct) : Construct :=
  {| kind_of := kind_of c; props := props c; document := document c ++ [s];
     defaultChild := defaultChild c |}.

(** [new K(scope, id, props)]: registers the construct under [scope/id];
    the framework throws when the scope already has a child of that id. *)
Definition newConstruct (scope : path) (id : string) (k : kind) (p : value) : M path :=
  fun w =>
    let here := scope ++ [id] in
    match tree w !! here with
    | Some _ => Err (DuplicateId here)
    | None =>
        Ok (here, {| tree := <[here := mkConstruct k p]> (tree w);
                     journal := journal w ++ [Created here k] |})
    end.

Definition patchResource (p : path) (f : CfnResource -> CfnResource) (ev : event) : M unit :=
  fun w =>
    match tree w !! p with
    | None => Err (NoSuchConstruct p)
    | Some c =>
        Ok (tt, {| tree := <[p := withChild f c]> (tree w);
                   journal := journal w ++ [ev] |})
    end.

(** Dotted override paths, [Properties.Environment]. *)
Fixpoint splitDots (acc : string) (s : string) : list string :=
  match s with
  | EmptyString => [String.rev acc]
  | String c rest =>
      if Ascii.eqb c "."%char
      then String.rev acc :: splitDots EmptyString rest
      else splitDots (String c acc) rest
  end.

Definition addOverride (p : path) (dotted : string) (v : value) : M unit :=
  let keyPath := splitDots EmptyString dotted in
  patchResource p
    (fun r => {| cfnMetadata := cfnMetadata r;
                 rawOverrides := rawOverrides r ++ [(keyPath, v)] |})
    (Overridden p keyPath v).

Definition addPropertyOverride (p : path) (propertyPath : string) (v : value) : M unit :=
  addOverride p (String.append "Properties." propertyPath) v.

Definition addDeletionOverride (p : path) (dotted : string) : M unit :=
  addOverride p dotted VUndefined.

(** [resource.cfnOptions.metadata = md]: an assignment, whatever was there
    before is gone. *)
Definition setMetadata (p : path) (md : value) : M unit :=
  patchResource p
    (fun r => {| cfnMetadata := md; rawOverrides := rawOverrides r |})
    (MetadataSet p).

Definition isBucket (w : world) (b : path) : bool :=
  match tree w !! b with
  | Some c => bool_decide (kind_of c = KBucket)
  | None => false
  end.

(** [bucket.addToResourcePolicy(statement)] on an [s3.Bucket]: the bucket's
    policy, the child [Policy], is created on first use; the statement is
    appended to its document. *)
Definition addToResourcePolicy (bucket : path) (s : PolicyStatement) : M unit :=
  fun w =>
    if isBucket w bucket then
      let pol := bucket ++ ["Policy"] in
      (match tree w !! pol with
       | None => newConstruct bucket "Policy" KBucketPolicy (VObj {[ "bucket" := VRef bucket ]})
       | Some _ => ret pol
       end ;;
       fun w' =>
         match tree w' !! pol with
         | None => Err (NoSuchConstruct pol)
         | Some c =>
             Ok (tt, {| tree := <[pol := withStatement s c]> (tree w');
                        journal := journal w' ++ [StatementAdded pol s] |})
         end) w
    else Err (NotABucket bucket).

(** ** Synthesis of a resource declaration

    The framework renders the properties of a resource and then applies the
    raw overrides in the order they were recorded: an override whose value
    is [undefined] deletes the key at its path, any other value is written
    there, intermediate objects being created on the way. *)
Fixpoint applyOverride (keyPath : list string) (v : value)
    (o : gmap string value) : gmap string value :=
  match keyPath with
  | [] => o
  | k :: rest =>
      match rest with
      | [] => match v with
              | VUndefined => delete k o
              | _ => <[k := v]> o
              end
      | _ :: _ =>
          <[k := VObj (applyOverride rest v (asObject (default VUndefined (o !! k))))]> o
      end
  end.

Definition toCloudFormation (rendered : gmap string value) (r : CfnResource)
    : gmap string value :=
  foldl (fun t ov => applyOverride (fst ov) (snd ov) t)
        (<["Properties" := VObj rendered]>
           (match cfnMetadata r with
            | VUndefined => ∅
            | md => {[ "Metadata" := md ]}
            end))
        (rawOverrides r).

Definition propertiesOf (template : gmap string value) : gmap string value :=
  asObject (default VUndefined (template !! "Properties")).

(** ** Observations on a run *)

(** The events journaled between two worlds of one run. *)
Definition since (w w' : world) : list event :=
  drop (length (journal w)) (journal w').

Definition created (k : kind) (evs : list event) : list path :=
  flat_map (fun ev => match ev with
                      | Created p k' => if decide (k' = k) then [p] else []
                      | _ => []
                      end) evs.

Definition isFree (w : world) (scope : path) (id : string) : bool :=
  match tree w !! (scope ++ [id]) with
  | None => true
  | Some _ => false
  end.

Definition allFree (w : world) (scope : path) (ids : list string) : bool :=
  forallb (isFree w scope) ids.

(** The suppressions of a [cfn_nag] metadata block, as (rule, reason). *)
Definition suppressions (md : value) : list (value * value) :=
  map (fun r => (getProp r "id", getProp r "reason"))
      (asArray (getProp (getProp md "cfn_nag") "rules_to_suppress")).

(** Readers of a distribution configuration. *)
Definition behaviorsOf (cfg : gmap string value) : list value :=
  flat_map (fun oc => asArray (getProp oc "behaviors"))
           (asArray (getProp (VObj cfg) "originConfigs")).

Definition defaultBehaviors (cfg : gmap string value) : list value :=
  filter (fun b => truthy (getProp b "isDefaultBehavior") = true) (behaviorsOf cfg).

Definition attachedEdgeVersions (cfg : gmap string value) : list value :=
  flat_map (fun b => map (fun a => getProp a "lambdaFunction")
                         (asArray (getProp b "lambdaFunctionAssociations")))
           (defaultBehaviors cfg).

Definition logDestination (cfg : gmap string value) : value :=
  getProp (getProp (VObj cfg) "loggingConfig") "bucket".

Definition s3Origins (cfg : gmap string value) : list (value * value) :=
  map (fun oc => (getProp (getProp oc "s3OriginSource") "s3BucketSource",
                  getProp (getProp oc "s3OriginSource") "originAccessIdentity"))
      (asArray (getProp (VObj cfg) "originConfigs")).

(** * The helper *)

Section Provisioner.

(** [DefaultS3Props()] of [./s3-bucket-defaults], a module outside this
    development: the hardened bucket properties. The helper hands them to
    the bucket constructor as they are, so they are left open. *)
Variable DefaultS3Props : value.

(** The fields the two resolvers of [./cloudfront-distribution-defaults]
    fix whatever their arguments are (price class, default root object and
    the like); the module is outside this development and the spec does not
    give the values, so they are left open. *)
Variable fixedDistributionDefaults : gmap string value.

(** Modelled from the spec: [overrideProps] of [./utils], a module outside
    this development. A shallow merge: every top-level property of the caller's
    object replaces the default property of that name entirely, and a
    property the caller's object does not have keeps its default. *)
Definition overrideProps (DefaultProps userProps : gmap string value)
    : gmap string value :=
  userProps ∪ DefaultProps.

(** Modelled from the spec: [deployLambdaFunction] of [./lambda-helper], a
    module outside this development: provisions one compute resource, under
    the given id, from a code/runtime/handler triple. Only the function is
    modelled; what else that helper registers beside it or sets on it is
    left open. *)
Definition deployLambdaFunction (scope : path) (lambdaFunctionProps : value)
    (functionId : string) : M path :=
  newConstruct scope functionId KFunction lambdaFunctionProps.

(** Modelled from the spec: the default behavior both resolvers of
    [./cloudfront-distribution-defaults] build. With header injection
    enabled the edge-function version is attached to the behavior's
    edge-function list, otherwise the list is omitted. *)
Definition defaultBehavior (setHttpSecurityHeaders edgeLambda : value) : value :=
  if truthy setHttpSecurityHeaders
  then VObj {[ "isDefaultBehavior" := VBool true;
               "lambdaFunctionAssociations" :=
                 VArr [VObj {[ "lambdaFunction" := edgeLambda ]}] ]}
  else VObj {[ "isDefaultBehavior" := VBool true ]}.

(** Modelled from the spec: the API-origin resolver of
    [./cloudfront-distribution-defaults]. A complete configuration from the
    endpoint, the logging destination, the header-injection flag and the
    optional edge-function version; every other field is a fixed default. *)
Definition DefaultCloudFrontWebDistributionForApiGatewayProps
    (apiEndPoint : path) (loggingBucket setHttpSecurityHeaders edgeLambda : value)
    : gmap string value :=
  <["originConfigs" :=
      VArr [VObj {[ "customOriginSource" :=
                      VObj {[ "domainName" := VTok (TAttr apiEndPoint "url") ]};
                    "behaviors" :=
                      VArr [defaultBehavior setHttpSecurityHeaders edgeLambda] ]}]]>
    (<["loggingConfig" := VObj {[ "bucket" := loggingBucket ]}]>
       fixedDistributionDefaults).

(** Modelled from the spec: the storage-origin resolver of
    [./cloudfront-distribution-defaults]. The origin is the source bucket
    together with the origin-access identity the distribution uses to read
    it. *)
Definition DefaultCloudFrontWebDistributionForS3Props
    (sourceBucket : path)
    (loggingBucket originAccessIdentity setHttpSecurityHeaders edgeLambda : value)
    : gmap string value :=
  <["originConfigs" :=
      VArr [VObj {[ "s3OriginSource" :=
                      VObj {[ "s3BucketSource" := VRef sourceBucket;
                              "originAccessIdentity" := originAccessIdentity ]};
                    "behaviors" :=
                      VArr [defaultBehavior setHttpSecurityHeaders edgeLambda] ]}]]>
    (<["loggingConfig" := VObj {[ "bucket" := loggingBucket ]}]>
       fixedDistributionDefaults).

Definition w70Reason : string :=
  "Since the distribution uses the CloudFront domain name, CloudFront automatically sets the security policy to TLSv1 regardless of the value of MinimumProtocolVersion".

Definition loggingBucketReason : string :=
  "This S3 bucket is used as the access logging bucket for CloudFront Distribution".

Definition f16Reason : string :=
  "Public website bucket policy requires a wildcard principal".

(** Override Cfn_Nag rule: Cloudfront TLS-1.2 rule. *)
Definition updateSecurityPolicy (cfDistribution : path) : M path :=
  let cfnCfDistribution := cfDistribution in
  setMetadata cfnCfDistribution
    (VObj {[ "cfn_nag" :=
        VObj {[ "rules_to_suppress" :=
          VArr [VObj {[ "id" := VStr "W70"; "reason" := VStr w70Reason ]}] ]} ]}) ;;
  ret cfDistribution.

Definition createCloudfrontLoggingBucket (scope : path) : M path :=
  loggingBucket <- newConstruct scope "CloudfrontLoggingBucket" KBucket DefaultS3Props ;;
  let loggingBucketResource := loggingBucket in
  addPropertyOverride loggingBucketResource "AccessControl" (VStr "LogDeliveryWrite") ;;
  setMetadata loggingBucketResource
    (VObj {[ "cfn_nag" :=
        VObj {[ "rules_to_suppress" :=
          VArr [VObj {[ "id" := VStr "W35"; "reason" := VStr loggingBucketReason ]};
                VObj {[ "id" := VStr "W51"; "reason" := VStr loggingBucketReason ]}] ]} ]}) ;;
  ret loggingBucket.

Definition dq : string := String (ascii_of_nat 34) EmptyString.

(** The inline handler, as the string literal of the source evaluates:
    each continued line keeps its indentation. *)
Definition edgeHandlerCode : string :=
  String.concat ""
    ["exports.handler = (event, context, callback) => { ";
     "          const response = event.Records[0].cf.response; ";
     "          const headers = response.headers; ";
     "          headers['x-xss-protection'] = [ ";
     "            { ";
     "              key: 'X-XSS-Protection', ";
     "              value: '1; mode=block' ";
     "            } ";
     "          ]; ";
     "          headers['x-frame-options'] = [ ";
     "            { ";
     "              key: 'X-Frame-Options', ";
     "              value: 'DENY' ";
     "            } ";
     "          ]; ";
     "          headers['x-content-type-options'] = [ ";
     "            { ";
     "              key: 'X-Content-Type-Options', ";
     "              value: 'nosniff' ";
     "            } ";
     "          ]; ";
     "          headers['strict-transport-security'] = [ ";
     "            { ";
     "              key: 'Strict-Transport-Security', ";
     "              value: 'max-age=63072000; includeSubdomains; preload' ";
     "            } ";
     "          ]; ";
     "          headers['referrer-policy'] = [ ";
     "            { ";
     "              key: 'Referrer-Policy', ";
     "              value: 'same-origin' ";
     "            } ";
     "          ]; ";
     "          headers['content-security-policy'] = [ ";
     "            { ";
     "              key: 'Content-Security-Policy', ";
     "              value: "; dq;
     "default-src 'none'; base-uri 'self'; img-src 'self'; script-src 'self'; style-src 'self' https:; object-src 'none'; frame-ancestors 'none'; font-src 'self' https:; form-action 'self'; manifest-src 'self'; connect-src 'self'";
     dq; " ";
     "             } ";
     "          ]; ";
     "          callback(null, response); ";
     "        };"].

(** Lambda@Edge function to insert the HTTP Security Headers into the
    response coming from the origin servers. *)
Definition defaultLambdaEdgeFunction (scope : path) : M path :=
  edgeLambdaFunc <-
    deployLambdaFunction scope
      (VObj {[ "code" := VStr edgeHandlerCode;
               "runtime" := VStr "nodejs12.x";
               "handler" := VStr "index.handler" ]})
      "SetHttpSecurityHeaders" ;;
  let cfnEdgeLambdaFunction := edgeLambdaFunc in
  addDeletionOverride cfnEdgeLambdaFunction "Properties.Environment" ;;
  ret edgeLambdaFunc.

(** [cloudFrontDistributionProps && cloudFrontDistributionProps.loggingConfig].
    The caller's object is either left out ([None], that is [undefined]) or
    an object; an object is truthy whatever its properties are. *)
Definition loggingConfigOf (cloudFrontDistributionProps : option (gmap string value))
    : value :=
  match cloudFrontDistributionProps with
  | Some userProps => getProp (VObj userProps) "loggingConfig"
  | None => VUndefined
  end.

(** [cloudFrontDistributionProps ? overrideProps(defaultprops,
    cloudFrontDistributionProps) : defaultprops] *)
Definition cfprops (defaultprops : gmap string value)
    (cloudFrontDistributionProps : option (gmap string value)) : gmap string value :=
  match cloudFrontDistributionProps with
  | Some userProps => overrideProps defaultprops userProps
  | None => defaultprops
  end.

(** [httpSecurityHeaders ? httpSecurityHeaders : true] *)
Definition apiHttpSecurityHeaders (httpSecurityHeaders : value) : value :=
  if truthy httpSecurityHeaders then httpSecurityHeaders else VBool true.

(** [(httpSecurityHeaders !== undefined && httpSecurityHeaders === false)
    ? false : true] *)
Definition s3HttpSecurityHeaders (httpSecurityHeaders : value) : value :=
  if negb (isUndefined httpSecurityHeaders) && strictEqFalse httpSecurityHeaders
  then VBool false else VBool true.

Definition CloudFrontDistributionForApiGateway (scope apiEndPoint : path)
    (cloudFrontDistributionProps : option (gmap string value))
    (httpSecurityHeaders : value) : M path :=
  let _httpSecurityHeaders := apiHttpSecurityHeaders httpSecurityHeaders in
  edgeLambdaVersion <-
    (if truthy _httpSecurityHeaders then
       fn <- defaultLambdaEdgeFunction scope ;;
       version <- newConstruct scope "SetHttpSecurityHeadersVersion" KVersion
                    (VObj {[ "lambda" := VRef fn ]}) ;;
       ret (VRef version)
     else ret VUndefined) ;;
  defaultprops <-
    (if truthy (loggingConfigOf cloudFrontDistributionProps) then
       ret (DefaultCloudFrontWebDistributionForApiGatewayProps apiEndPoint
              (getProp (loggingConfigOf cloudFrontDistributionProps) "bucket")
              _httpSecurityHeaders edgeLambdaVersion)
     else
       loggingBucket <- createCloudfrontLoggingBucket scope ;;
       ret (DefaultCloudFrontWebDistributionForApiGatewayProps apiEndPoint
              (VRef loggingBucket) _httpSecurityHeaders edgeLambdaVersion)) ;;
  cfDistribution <- newConstruct scope "CloudFrontDistribution" KDistribution
                      (VObj (cfprops defaultprops cloudFrontDistributionProps)) ;;
  updateSecurityPolicy cfDistribution ;;
  ret cfDistribution.

Definition CloudFrontDistributionForS3 (scope sourceBucket : path)
    (cloudFrontDistributionProps : option (gmap string value))
    (httpSecurityHeaders : value) : M path :=
  cfnOrigAccessId <-
    newConstruct scope "CloudFrontOriginAccessIdentity" KCfnOriginAccessIdentity
      (VObj {[ "cloudFrontOriginAccessIdentityConfig" :=
                 VObj {[ "comment" :=
                           VStr "Access S3 bucket content only through CloudFront" ]} ]}) ;;
  oaiImported <-
    newConstruct scope "OAIImported" KOriginAccessIdentity
      (VObj {[ "originAccessIdentityName" := VTok (TRef cfnOrigAccessId) ]}) ;;
  let _httpSecurityHeaders := s3HttpSecurityHeaders httpSecurityHeaders in
  edgeLambdaVersion <-
    (if truthy _httpSecurityHeaders then
       fn <- defaultLambdaEdgeFunction scope ;;
       version <- newConstruct scope "SetHttpSecurityHeadersVersion" KVersion
                    (VObj {[ "lambda" := VRef fn ]}) ;;
       ret (VRef version)
     else ret VUndefined) ;;
  defaultprops <-
    (if truthy (loggingConfigOf cloudFrontDistributionProps) then
       ret (DefaultCloudFrontWebDistributionForS3Props sourceBucket
              (getProp (loggingConfigOf cloudFrontDistributionProps) "bucket")
              (VRef oaiImported) _httpSecurityHeaders edgeLambdaVersion)
     else
       loggingBucket <- createCloudfrontLoggingBucket scope ;;
       ret (DefaultCloudFrontWebDistributionForS3Props sourceBucket
              (VRef loggingBucket) (VRef oaiImported)
              _httpSecurityHeaders edgeLambdaVersion)) ;;
  cfDistribution <- newConstruct scope "CloudFrontDistribution" KDistribution
                      (VObj (cfprops defaultprops cloudFrontDistributionProps)) ;;
  updateSecurityPolicy cfDistribution ;;
  addToResourcePolicy sourceBucket
    {| actions := ["s3:GetObject"];
       resources := [TArnForObjects sourceBucket "*"];
       principals :=
         [CanonicalUserPrincipal (TAttr cfnOrigAccessId "S3CanonicalUserId")] |} ;;
  let bucketPolicy := sourceBucket ++ ["Policy"] in
  let sourceBucketPolicy := bucketPolicy in
  setMetadata sourceBucketPolicy
    (VObj {[ "cfn_nag" :=
        VObj {[ "rules_to_suppress" :=
          VArr [VObj {[ "id" := VStr "F16"; "reason" := VStr f16Reason ]}] ]} ]}) ;;
  ret cfDistribution.

(** ** What a run leaves behind

    The constructs and the worlds a successful run of each function
    produces, written out; the lemmas below show that the functions do
    produce them. *)

Definition w70Metadata : value :=
  VObj {[ "cfn_nag" :=
    VObj {[ "rules_to_suppress" :=
      VArr [VObj {[ "id" := VStr "W70"; "reason" := VStr w70Reason ]}] ]} ]}.

Definition loggingBucketMetadata : value :=
  VObj {[ "cfn_nag" :=
    VObj {[ "rules_to_suppress" :=
      VArr [VObj {[ "id" := VStr "W35"; "reason" := VStr loggingBucketReason ]};
            VObj {[ "id" := VStr "W51"; "reason" := VStr loggingBucketReason ]}] ]} ]}.

Definition f16Metadata : value :=
  VObj {[ "cfn_nag" :=
    VObj {[ "rules_to_suppress" :=
      VArr [VObj {[ "id" := VStr "F16"; "reason" := VStr f16Reason ]}] ]} ]}.

Definition edgeFunctionProps : value :=
  VObj {[ "code" := VStr edgeHandlerCode;
          "runtime" := VStr "nodejs12.x";
          "handler" := VStr "index.handler" ]}.

Definition loggingBucketConstruct : Construct :=
  {| kind_of := KBucket; props := DefaultS3Props; document := [];
     defaultChild :=
       {| cfnMetadata := loggingBucketMetadata;
          rawOverrides := [(["Properties"; "AccessControl"], VStr "LogDeliveryWrite")] |} |}.

Definition edgeFunctionConstruct : Construct :=
  {| kind_of := KFunction; props := edgeFunctionProps; document := [];
     defaultChild :=
       {| cfnMetadata := VUndefined;
          rawOverrides := [(["Properties"; "Environment"], VUndefined)] |} |}.

Definition distributionConstruct (cfg : gmap string value) : Construct :=
  {| kind_of := KDistribution; props := VObj cfg; document := [];
     defaultChild := {| cfnMetadata := w70Metadata; rawOverrides := [] |} |}.

Definition grantStatement (sourceBucket cfnOrigAccessId : path) : PolicyStatement :=
  {| actions := ["s3:GetObject"];
     resources := [TArnForObjects sourceBucket "*"];
     principals :=
       [CanonicalUserPrincipal (TAttr cfnOrigAccessId "S3CanonicalUserId")] |}.

Definition afterLoggingBucket (scope : path) (w : world) : world :=
  let lb := scope ++ ["CloudfrontLoggingBucket"] in
  {| tree := <[lb := loggingBucketConstruct]> (tree w);
     journal := journal w ++
       [Created lb KBucket;
        Overridden lb ["Properties"; "AccessControl"] (VStr "LogDeliveryWrite");
        MetadataSet lb] |}.

Definition afterEdgeFunction (scope : path) (w : world) : world :=
  let fn := scope ++ ["SetHttpSecurityHeaders"] in
  {| tree := <[fn := edgeFunctionConstruct]> (tree w);
     journal := journal w ++
       [Created fn KFunction;
        Overridden fn ["Properties"; "Environment"] VUndefined] |}.

Definition afterEdgeVersion (scope : path) (w : world) : world :=
  let fn := scope ++ ["SetHttpSecurityHeaders"] in
  let version := scope ++ ["SetHttpSecurityHeadersVersion"] in
  {| tree := <[version := mkConstruct KVersion (VObj {[ "lambda" := VRef fn ]})]>
               (tree (afterEdgeFunction scope w));
     journal := journal (afterEdgeFunction scope w) ++ [Created version KVersion] |}.

Definition afterDistribution (scope : path) (cfg : gmap string value) (w : world)
    : world :=
  let d := scope ++ ["CloudFrontDistribution"] in
  {| tree := <[d := distributionConstruct cfg]> (tree w);
     journal := journal w ++ [Created d KDistribution; MetadataSet d] |}.

Definition afterIdentity (scope : path) (w : world) : world :=
  let oai := scope ++ ["CloudFrontOriginAccessIdentity"] in
  let imported := scope ++ ["OAIImported"] in
  {| tree :=
       <[imported := mkConstruct KOriginAccessIdentity
                       (VObj {[ "originAccessIdentityName" := VTok (TRef oai) ]})]>
         (<[oai := mkConstruct KCfnOriginAccessIdentity
                     (VObj {[ "cloudFrontOriginAccessIdentityConfig" :=
                                VObj {[ "comment" :=
                                  VStr "Access S3 bucket content only through CloudFront" ]} ]})]>
            (tree w));
     journal := journal w ++
       [Created oai KCfnOriginAccessIdentity; Created imported KOriginAccessIdentity] |}.

(** The policy of the source bucket after the grant: the policy that was
    there, or a new one, with the statement appended and the metadata
    replaced. *)
Definition grantedPolicy (sourceBucket : path) (s : PolicyStatement)
    (before : option Construct) : Construct :=
  let c := match before with
           | Some c => c
           | None => mkConstruct KBucketPolicy (VObj {[ "bucket" := VRef sourceBucket ]})
           end in
  {| kind_of := kind_of c; props := props c; document := document c ++ [s];
     defaultChild := {| cfnMetadata := f16Metadata;
                        rawOverrides := rawOverrides (defaultChild c) |} |}.

Definition afterGrant (scope sourceBucket : path) (w : world) : world :=
  let pol := sourceBucket ++ ["Policy"] in
  let s := grantStatement sourceBucket (scope ++ ["CloudFrontOriginAccessIdentity"]) in
  {| tree := <[pol := grantedPolicy sourceBucket s (tree w !! pol)]> (tree w);
     journal := journal w ++
       match tree w !! pol with
       | None => [Created pol KBucketPolicy]
       | Some _ => []
       end ++ [StatementAdded pol s; MetadataSet pol] |}.

(** The edge-function version handed to the resolver, and the world after
    the first branch. *)
Definition edgeLambdaVersionOf (scope : path) (flag : value) : value :=
  if truthy flag then VRef (scope ++ ["SetHttpSecurityHeadersVersion"]) else VUndefined.

Definition afterEdgePhase (scope : path) (flag : value) (w : world) : world :=
  if truthy flag then afterEdgeVersion scope w else w.

(** The logging destination handed to the resolver, and the world after the
    second branch. *)
Definition loggingBucketOf (scope : path)
    (cloudFrontDistributionProps : option (gmap string value)) : value :=
  if truthy (loggingConfigOf cloudFrontDistributionProps)
  then getProp (loggingConfigOf cloudFrontDistributionProps) "bucket"
  else VRef (scope ++ ["CloudfrontLoggingBucket"]).

Definition afterLoggingPhase (scope : path)
    (cloudFrontDistributionProps : option (gmap string value)) (w : world) : world :=
  if truthy (loggingConfigOf cloudFrontDistributionProps)
  then w else afterLoggingBucket scope w.

Definition apiGatewayDefaults (scope apiEndPoint : path)
    (cloudFrontDistributionProps : option (gmap string value))
    (httpSecurityHeaders : value) : gmap string value :=
  DefaultCloudFrontWebDistributionForApiGatewayProps apiEndPoint
    (loggingBucketOf scope cloudFrontDistributionProps)
    (apiHttpSecurityHeaders httpSecurityHeaders)
    (edgeLambdaVersionOf scope (apiHttpSecurityHeaders httpSecurityHeaders)).

Definition apiGatewayWorld (scope apiEndPoint : path)
    (cloudFrontDistributionProps : option (gmap string value))
    (httpSecurityHeaders : value) (w : world) : world :=
  afterDistribution scope
    (cfprops (apiGatewayDefaults scope apiEndPoint cloudFrontDistributionProps
                httpSecurityHeaders)
             cloudFrontDistributionProps)
    (afterLoggingPhase scope cloudFrontDistributionProps
       (afterEdgePhase scope (apiHttpSecurityHeaders httpSecurityHeaders) w)).

Definition s3Defaults (scope sourceBucket : path)
    (cloudFrontDistributionProps : option (gmap string value))
    (httpSecurityHeaders : value) : gmap string value :=
  DefaultCloudFrontWebDistributionForS3Props sourceBucket
    (loggingBucketOf scope cloudFrontDistributionProps)
    (VRef (scope ++ ["OAIImported"]))
    (s3HttpSecurityHeaders httpSecurityHeaders)
    (edgeLambdaVersionOf scope (s3HttpSecurityHeaders httpSecurityHeaders)).

Definition s3World (scope sourceBucket : path)
    (cloudFrontDistributionProps : option (gmap string value))
    (httpSecurityHeaders : value) (w : world) : world :=
  afterGrant scope sourceBucket
    (afterDistribution scope
       (cfprops (s3Defaults scope sourceBucket cloudFrontDistributionProps
                   httpSecurityHeaders)
                cloudFrontDistributionProps)
       (afterLoggingPhase scope cloudFrontDistributionProps
          (afterEdgePhase scope (s3HttpSecurityHeaders httpSecurityHeaders)
             (afterIdentity scope w)))).

(** The value the caller's object has for a top-level key, if any. *)
Definition userValue (cloudFrontDistributionProps : option (gmap string value))
    (k : string) : option value :=
  match cloudFrontDistributionProps with
  | Some userProps => userProps !! k
  | None => None
  end.

(** ** The two entry points as one

    Most properties of the module are stated for both entry points alike. *)
Inductive variant :=
| ForApiGateway (apiEndPoint : path)
| ForS3 (sourceBucket : path).

Definition provision (v : variant) (scope : path)
    (cloudFrontDistributionProps : option (gmap string value))
    (httpSecurityHeaders : value) : M path :=
  match v with
  | ForApiGateway apiEndPoint =>
      CloudFrontDistributionForApiGateway scope apiEndPoint
        cloudFrontDistributionProps httpSecurityHeaders
  | ForS3 sourceBucket =>
      CloudFrontDistributionForS3 scope sourceBucket
        cloudFrontDistributionProps httpSecurityHeaders
  end.

(** The resolved value of [_httpSecurityHeaders]. *)
Definition headerInjection (v : variant) (httpSecurityHeaders : value) : value :=
  match v with
  | ForApiGateway _ => apiHttpSecurityHeaders httpSecurityHeaders
  | ForS3 _ => s3HttpSecurityHeaders httpSecurityHeaders
  end.

(** The ids a call registers in its scope, in the order it registers them:
    which ones depends on the two branches. *)
Definition identityIds (v : variant) : list string :=
  match v with
  | ForApiGateway _ => []
  | ForS3 _ => ["CloudFrontOriginAccessIdentity"; "OAIImported"]
  end.

Definition edgeIds (flag : value) : list string :=
  if truthy flag
  then ["SetHttpSecurityHeaders"; "SetHttpSecurityHeadersVersion"] else [].

Definition loggingIds (cloudFrontDistributionProps : option (gmap string value))
    : list string :=
  if truthy (loggingConfigOf cloudFrontDistributionProps)
  then [] else ["CloudfrontLoggingBucket"].

Definition idsNeeded (v : variant)
    (cloudFrontDistributionProps : option (gmap string value))
    (httpSecurityHeaders : value) : list string :=
  identityIds v ++ edgeIds (headerInjection v httpSecurityHeaders) ++
  loggingIds cloudFrontDistributionProps ++ ["CloudFrontDistribution"].

(** What a call needs of the world it starts in: the ids it registers are
    free in the scope and, for the storage variant, the source bucket, being
    an object the caller holds, is a bucket of the tree. *)
Definition ready (v : variant) (scope : path)
    (cloudFrontDistributionProps : option (gmap string value))
    (httpSecurityHeaders : value) (w : world) : bool :=
  allFree w scope (idsNeeded v cloudFrontDistributionProps httpSecurityHeaders) &&
  match v with
  | ForApiGateway _ => true
  | ForS3 sourceBucket => isBucket w sourceBucket
  end.

(** The value of [defaultprops]. *)
Definition resolvedDefaults (v : variant) (scope : path)
    (cloudFrontDistributionProps : option (gmap string value))
    (httpSecurityHeaders : value) : gmap string value :=
  match v with
  | ForApiGateway apiEndPoint =>
      apiGatewayDefaults scope apiEndPoint cloudFrontDistributionProps
        httpSecurityHeaders
  | ForS3 sourceBucket =>
      s3Defaults scope sourceBucket cloudFrontDistributionProps httpSecurityHeaders
  end.

Definition provisioned (v : variant) (scope : path)
    (cloudFrontDistributionProps : option (gmap string value))
    (httpSecurityHeaders : value) (w : world) : world :=
  match v with
  | ForApiGateway apiEndPoint =>
      apiGatewayWorld scope apiEndPoint cloudFrontDistributionProps
        httpSecurityHeaders w
  | ForS3 sourceBucket =>
      s3World scope sourceBucket cloudFrontDistributionProps httpSecurityHeaders w
  end.

(** The journal of each phase. *)
Definition identityEvents (scope : path) : list event :=
  [Created (scope ++ ["CloudFrontOriginAccessIdentity"]) KCfnOriginAccessIdentity;
   Created (scope ++ ["OAIImported"]) KOriginAccessIdentity].

Definition edgeEvents (scope : path) (flag : value) : list event :=
  if truthy flag then
    [Created (scope ++ ["SetHttpSecurityHeaders"]) KFunction;
     Overridden (scope ++ ["SetHttpSecurityHeaders"])
       ["Properties"; "Environment"] VUndefined;
     Created (scope ++ ["SetHttpSecurityHeadersVersion"]) KVersion]
  else [].

Definition loggingEvents (scope : path)
    (cloudFrontDistributionProps : option (gmap string value)) : list event :=
  if truthy (loggingConfigOf cloudFrontDistributionProps) then []
  else
    [Created (scope ++ ["CloudfrontLoggingBucket"]) KBucket;
     Overridden (scope ++ ["CloudfrontLoggingBucket"])
       ["Properties"; "AccessControl"] (VStr "LogDeliveryWrite");
     MetadataSet (scope ++ ["CloudfrontLoggingBucket"])].

Definition distributionEvents (scope : path) : list event :=
  [Created (scope ++ ["CloudFrontDistribution"]) KDistribution;
   MetadataSet (scope ++ ["CloudFrontDistribution"])].

Definition grantEvents (scope sourceBucket : path) (before : option Construct)
    : list event :=
  match before with
  | None => [Created (sourceBucket ++ ["Policy"]) KBucketPolicy]
  | Some _ => []
  end ++
  [StatementAdded (sourceBucket ++ ["Policy"])
     (grantStatement sourceBucket (scope ++ ["CloudFrontOriginAccessIdentity"]));
   MetadataSet (sourceBucket ++ ["Policy"])].

(** Everything journaled before the distribution exists. *)
Definition preparationEvents (v : variant) (scope : path)
    (cloudFrontDistributionProps : option (gmap string value))
    (httpSecurityHeaders : value) : list event :=
  match v with
  | ForApiGateway _ => []
  | ForS3 _ => identityEvents scope
  end ++
  edgeEvents scope (headerInjection v httpSecurityHeaders) ++
  loggingEvents scope cloudFrontDistributionProps.

Definition completionEvents (v : variant) (scope : path) (w : world) : list event :=
  match v with
  | ForApiGateway _ => []
  | ForS3 sourceBucket =>
      grantEvents scope sourceBucket (tree w !! (sourceBucket ++ ["Policy"]))
  end.

Definition isStatementAdded (ev : event) : bool :=
  match ev with StatementAdded _ _ => true | _ => false end.

(** ** Further observations on a run *)

(** The paths of the resources on which an override at the given key path
    was made. *)
Definition overridden (keyPath : list string) (evs : list event) : list path :=
  flat_map (fun ev => match ev with
                      | Overridden p kp _ => if decide (kp = keyPath) then [p] else []
                      | _ => []
                      end) evs.

(** The first id of a list that is taken in the scope, if any. *)
Definition firstTaken (w : world) (scope : path) (ids : list string) : option string :=
  List.find (fun id => negb (isFree w scope id)) ids.

(** The policy a call may write to: the one of the source bucket. *)
Definition policyOf (v : variant) : list path :=
  match v with
  | ForApiGateway _ => []
  | ForS3 sourceBucket => [sourceBucket ++ ["Policy"]]
  end.

(** ** Sample inputs *)

(** A distribution whose resource has metadata and an override of its own. *)
Definition oldDistribution : Construct :=
  {| kind_of := KDistribution;
     props := VObj {[ "comment" := VStr "legacy" ]};
     document := [];
     defaultChild :=
       {| cfnMetadata := VObj {[ "owner" := VStr "web" ]};
          rawOverrides := [(["Properties"; "Tags"], VNull)] |} |}.

(** A stack that already holds a REST API, two buckets, one of them with a
    policy whose resource carries metadata of its own, a distribution that
    was annotated before, and a function version of the caller. *)
Definition siteWorld : world :=
  {| tree :=
       {[ ["Stack"; "Api"] := mkConstruct KRestApi VUndefined;
          ["Stack"; "Site"] := mkConstruct KBucket VUndefined;
          ["Stack"; "Assets"] := mkConstruct KBucket VUndefined;
          ["Stack"; "Assets"; "Policy"] :=
            {| kind_of := KBucketPolicy;
               props := VObj {[ "bucket" := VRef ["Stack"; "Assets"] ]};
               document :=
                 [{| actions := ["s3:PutObject"];
                     resources := [TArnForObjects ["Stack"; "Assets"] "uploads/*"];
                     principals := [AnyPrincipal] |}];
               defaultChild :=
                 {| cfnMetadata := VObj {[ "owner" := VStr "web" ]};
                    rawOverrides := [] |} |};
          ["Stack"; "Rewrite"; "CurrentVersion"] := mkConstruct KVersion VUndefined;
          ["Stack"; "Old"] := oldDistribution ]};
     journal := [] |}.

(** The caller replaces the origins by one of its own, with its own
    function version on the default behavior. *)
Definition ownOrigins : gmap string value :=
  {[ "originConfigs" :=
       VArr [VObj {[ "customOriginSource" :=
                       VObj {[ "domainName" := VStr "origin.example.org" ]};
                     "behaviors" :=
                       VArr [VObj {[ "isDefaultBehavior" := VBool true;
                                     "lambdaFunctionAssociations" :=
                                       VArr [VObj {[ "lambdaFunction" :=
                                         VRef ["Stack"; "Rewrite"; "CurrentVersion"] ]}] ]}] ]}] ]}.

(** A logging configuration that names a prefix but no bucket. *)
Definition prefixOnly : gmap string value :=
  {[ "loggingConfig" := VObj {[ "prefix" := VStr "cdn/" ]} ]}.

(** A logging configuration that names the caller's own bucket. *)
Definition ownLogs : gmap string value :=
  {[ "loggingConfig" := VObj {[ "bucket" := VRef ["Stack"; "Site"] ]} ]}.

(** Values for what the sources leave open. *)
Definition sampleS3Props : value :=
  VObj {[ "versioned" := VBool true ]}.

Definition sampleFixedDefaults : gmap string value :=
  {[ "defaultRootObject" := VStr "index.html" ]}.

(** The stack of [siteWorld] with a function of the caller under the id the
    edge function would take. *)
Definition crowdedWorld : world :=
  {| tree := <[ ["Stack"; "SetHttpSecurityHeaders"] := mkConstruct KFunction VNull ]>
               (tree siteWorld);
     journal := [] |}.

(** * Paths and fresh ids *)

(** Membership in a list of ids that is written out. *)
Ltac in_ids := apply list_elem_of_In; rewrite ?in_app_iff; cbn [In]; tauto.
Ltac not_in_ids H :=
  apply list_elem_of_In in H; cbn [In app] in H; intuition discriminate.

Lemma child_ne (p q : path) (a b : string) : a ≠ b → p ++ [a] ≠ q ++ [b].
Proof. intros Hab Heq. apply app_inj_tail in Heq as [_ Heq]. contradiction. Qed.

Lemma isFree_lookup (w : world) (scope : path) (id : string) :
  isFree w scope id = true → tree w !! (scope ++ [id]) = None.
Proof. unfold isFree. destruct (tree w !! (scope ++ [id])); [discriminate | reflexivity]. Qed.

Lemma allFree_lookup (w : world) (scope : path) (ids : list string) (id : string) :
  allFree w scope ids = true → id ∈ ids → tree w !! (scope ++ [id]) = None.
Proof.
  unfold allFree. intros Hall Hin. apply isFree_lookup.
  rewrite forallb_forall in Hall. apply Hall. by apply list_elem_of_In.
Qed.

Lemma isBucket_lookup (w : world) (b : path) :
  isBucket w b = true → ∃ c, tree w !! b = Some c ∧ kind_of c = KBucket.
Proof.
  unfold isBucket. destruct (tree w !! b) as [c|]; [|discriminate].
  intros Hk. apply bool_decide_eq_true in Hk. eauto.
Qed.

(** * The framework calls *)

Lemma bind_ok {A B} (m : M A) (k : A → M B) (w w' : world) (a : A) :
  m w = Ok (a, w') → bind m k w = k a w'.
Proof. unfold bind. by intros ->. Qed.

Lemma bind_ret_l {A B} (a : A) (k : A → M B) (w : world) :
  bind (ret a) k w = k a w.
Proof. reflexivity. Qed.

Lemma bind_ret_r {A} (m : M A) (w : world) : bind m ret w = m w.
Proof. unfold bind, ret. by destruct (m w) as [[a w']|e]. Qed.

Lemma bind_assoc {A B C} (m : M A) (k : A → M B) (h : B → M C) (w : world) :
  bind (bind m k) h w = bind m (fun a => bind (k a) h) w.
Proof. unfold bind. by destruct (m w) as [[a w']|e]. Qed.

Lemma bind_err {A B} (m : M A) (k : A → M B) (w : world) (e : error) :
  m w = Err e → bind m k w = Err e.
Proof. unfold bind. by intros ->. Qed.

Lemma bind_ext {A B} (m : M A) (k k' : A → M B) (w : world) :
  (∀ a w', k a w' = k' a w') → bind m k w = bind m k' w.
Proof. intros Hk. unfold bind. destruct (m w) as [[a w']|e]; [apply Hk | reflexivity]. Qed.

Lemma newConstruct_free (scope : path) (id : string) (k : kind) (p : value) (w : world) :
  tree w !! (scope ++ [id]) = None →
  newConstruct scope id k p w =
    Ok (scope ++ [id],
        {| tree := <[scope ++ [id] := mkConstruct k p]> (tree w);
           journal := journal w ++ [Created (scope ++ [id]) k] |}).
Proof. unfold newConstruct. cbv zeta. by intros ->. Qed.

Lemma newConstruct_taken (scope : path) (id : string) (k : kind) (p : value) (w : world) :
  is_Some (tree w !! (scope ++ [id])) →
  newConstruct scope id k p w = Err (DuplicateId (scope ++ [id])).
Proof. unfold newConstruct. cbv zeta. by intros [c ->]. Qed.

Lemma patchResource_found (p : path) (f : CfnResource → CfnResource) (ev : event)
    (c : Construct) (w : world) :
  tree w !! p = Some c →
  patchResource p f ev w =
    Ok (tt, {| tree := <[p := withChild f c]> (tree w);
               journal := journal w ++ [ev] |}).
Proof. unfold patchResource. by intros ->. Qed.

Lemma since_app (w w' : world) (evs : list event) :
  journal w' = journal w ++ evs → since w w' = evs.
Proof. unfold since. intros ->. apply drop_app_length. Qed.

(** * The helpers of the module *)

Lemma updateSecurityPolicy_run (cfDistribution : path) (c : Construct) (w : world) :
  tree w !! cfDistribution = Some c →
  updateSecurityPolicy cfDistribution w =
    Ok (cfDistribution,
        {| tree := <[cfDistribution :=
                       withChild (fun r => {| cfnMetadata := w70Metadata;
                                              rawOverrides := rawOverrides r |}) c]>
                     (tree w);
           journal := journal w ++ [MetadataSet cfDistribution] |}).
Proof.
  intros Hc. unfold updateSecurityPolicy. cbv zeta.
  erewrite bind_ok by (apply patchResource_found; exact Hc).
  reflexivity.
Qed.

Lemma createCloudfrontLoggingBucket_run (scope : path) (w : world) :
  tree w !! (scope ++ ["CloudfrontLoggingBucket"]) = None →
  createCloudfrontLoggingBucket scope w =
    Ok (scope ++ ["CloudfrontLoggingBucket"], afterLoggingBucket scope w).
Proof.
  intros Hfree. unfold createCloudfrontLoggingBucket.
  erewrite bind_ok by (apply newConstruct_free; exact Hfree).
  cbv zeta. unfold addPropertyOverride, addOverride. cbv zeta.
  erewrite bind_ok by (apply patchResource_found; apply lookup_insert_eq).
  erewrite bind_ok by (apply patchResource_found; apply lookup_insert_eq).
  unfold ret, afterLoggingBucket. cbn [tree journal].
  rewrite !insert_insert_eq, <- !app_assoc. reflexivity.
Qed.

Lemma defaultLambdaEdgeFunction_run (scope : path) (w : world) :
  tree w !! (scope ++ ["SetHttpSecurityHeaders"]) = None →
  defaultLambdaEdgeFunction scope w =
    Ok (scope ++ ["SetHttpSecurityHeaders"], afterEdgeFunction scope w).
Proof.
  intros Hfree. unfold defaultLambdaEdgeFunction, deployLambdaFunction.
  erewrite bind_ok by (apply newConstruct_free; exact Hfree).
  cbv zeta. unfold addDeletionOverride, addOverride. cbv zeta.
  erewrite bind_ok by (apply patchResource_found; apply lookup_insert_eq).
  unfold ret, afterEdgeFunction. cbn [tree journal].
  rewrite !insert_insert_eq, <- !app_assoc. reflexivity.
Qed.

(** * Frame lemmas: what each phase leaves alone *)

Lemma afterEdgePhase_other (scope : path) (flag : value) (w : world) (p : path) :
  p ≠ scope ++ ["SetHttpSecurityHeaders"] →
  p ≠ scope ++ ["SetHttpSecurityHeadersVersion"] →
  tree (afterEdgePhase scope flag w) !! p = tree w !! p.
Proof.
  intros Hf Hv. unfold afterEdgePhase. destruct (truthy flag); [|reflexivity].
  cbn [afterEdgeVersion afterEdgeFunction tree].
  by rewrite !lookup_insert_ne.
Qed.

Lemma afterLoggingPhase_other (scope : path)
    (cloudFrontDistributionProps : option (gmap string value)) (w : world) (p : path) :
  p ≠ scope ++ ["CloudfrontLoggingBucket"] →
  tree (afterLoggingPhase scope cloudFrontDistributionProps w) !! p = tree w !! p.
Proof.
  intros Hp. unfold afterLoggingPhase.
  destruct (truthy (loggingConfigOf cloudFrontDistributionProps)); [reflexivity|].
  cbn [afterLoggingBucket tree]. by rewrite lookup_insert_ne.
Qed.

Lemma afterIdentity_other (scope : path) (w : world) (p : path) :
  p ≠ scope ++ ["CloudFrontOriginAccessIdentity"] →
  p ≠ scope ++ ["OAIImported"] →
  tree (afterIdentity scope w) !! p = tree w !! p.
Proof.
  intros Ho Hi. cbn [afterIdentity tree]. by rewrite !lookup_insert_ne.
Qed.

Lemma afterDistribution_other (scope : path) (cfg : gmap string value) (w : world)
    (p : path) :
  p ≠ scope ++ ["CloudFrontDistribution"] →
  tree (afterDistribution scope cfg w) !! p = tree w !! p.
Proof. intros Hp. cbn [afterDistribution tree]. by rewrite lookup_insert_ne. Qed.

Lemma afterGrant_other (scope sourceBucket : path) (w : world) (p : path) :
  p ≠ sourceBucket ++ ["Policy"] →
  tree (afterGrant scope sourceBucket w) !! p = tree w !! p.
Proof. intros Hp. cbn [afterGrant tree]. by rewrite lookup_insert_ne. Qed.

(** A construct that is there when a phase starts is there when it ends. *)
Lemma afterEdgePhase_stays (scope : path) (flag : value) (w : world)
    (p : path) (c : Construct) :
  (truthy flag = true → tree w !! (scope ++ ["SetHttpSecurityHeaders"]) = None) →
  (truthy flag = true →
   tree w !! (scope ++ ["SetHttpSecurityHeadersVersion"]) = None) →
  tree w !! p = Some c →
  tree (afterEdgePhase scope flag w) !! p = Some c.
Proof.
  intros Hf Hv Hc. unfold afterEdgePhase.
  destruct (truthy flag); [|exact Hc].
  specialize (Hf eq_refl). specialize (Hv eq_refl).
  cbn [afterEdgeVersion afterEdgeFunction tree].
  by rewrite !lookup_insert_ne by (intros <-; congruence).
Qed.

Lemma afterLoggingPhase_stays (scope : path)
    (cloudFrontDistributionProps : option (gmap string value)) (w : world)
    (p : path) (c : Construct) :
  (truthy (loggingConfigOf cloudFrontDistributionProps) = false →
   tree w !! (scope ++ ["CloudfrontLoggingBucket"]) = None) →
  tree w !! p = Some c →
  tree (afterLoggingPhase scope cloudFrontDistributionProps w) !! p = Some c.
Proof.
  intros Hl Hc. unfold afterLoggingPhase.
  destruct (truthy (loggingConfigOf cloudFrontDistributionProps)); [exact Hc|].
  specialize (Hl eq_refl). cbn [afterLoggingBucket tree].
  by rewrite lookup_insert_ne by (intros <-; congruence).
Qed.

(** * The two branches the entry points share *)

Lemma apiHttpSecurityHeaders_truthy (httpSecurityHeaders : value) :
  truthy (apiHttpSecurityHeaders httpSecurityHeaders) = true.
Proof.
  unfold apiHttpSecurityHeaders.
  destruct (truthy httpSecurityHeaders) eqn:Ht; [exact Ht | reflexivity].
Qed.

Lemma s3HttpSecurityHeaders_false (httpSecurityHeaders : value) :
  httpSecurityHeaders = VBool false →
  s3HttpSecurityHeaders httpSecurityHeaders = VBool false.
Proof. by intros ->. Qed.

Lemma s3HttpSecurityHeaders_true (httpSecurityHeaders : value) :
  httpSecurityHeaders ≠ VBool false →
  s3HttpSecurityHeaders httpSecurityHeaders = VBool true.
Proof.
  intros Hne. unfold s3HttpSecurityHeaders.
  destruct httpSecurityHeaders as [| |[|]| | | | | |]; try reflexivity.
  by destruct Hne.
Qed.

Lemma edgePhase_run (scope : path) (flag : value) (w : world) :
  (truthy flag = true → tree w !! (scope ++ ["SetHttpSecurityHeaders"]) = None) →
  (truthy flag = true →
   tree w !! (scope ++ ["SetHttpSecurityHeadersVersion"]) = None) →
  (if truthy flag then
     fn <- defaultLambdaEdgeFunction scope ;;
     version <- newConstruct scope "SetHttpSecurityHeadersVersion" KVersion
                  (VObj {[ "lambda" := VRef fn ]}) ;;
     ret (VRef version)
   else ret VUndefined) w
  = Ok (edgeLambdaVersionOf scope flag, afterEdgePhase scope flag w).
Proof.
  intros Hf Hv. unfold edgeLambdaVersionOf, afterEdgePhase.
  destruct (truthy flag); [|reflexivity].
  erewrite bind_ok by (apply defaultLambdaEdgeFunction_run; by apply Hf).
  erewrite bind_ok.
  2:{ apply newConstruct_free. cbn [afterEdgeFunction tree].
      rewrite lookup_insert_ne by (by apply child_ne). by apply Hv. }
  reflexivity.
Qed.

Lemma loggingPhase_run (scope : path)
    (cloudFrontDistributionProps : option (gmap string value))
    (resolve : value → gmap string value) (w : world) :
  (truthy (loggingConfigOf cloudFrontDistributionProps) = false →
   tree w !! (scope ++ ["CloudfrontLoggingBucket"]) = None) →
  (if truthy (loggingConfigOf cloudFrontDistributionProps) then
     ret (resolve (getProp (loggingConfigOf cloudFrontDistributionProps) "bucket"))
   else
     loggingBucket <- createCloudfrontLoggingBucket scope ;;
     ret (resolve (VRef loggingBucket))) w
  = Ok (resolve (loggingBucketOf scope cloudFrontDistributionProps),
        afterLoggingPhase scope cloudFrontDistributionProps w).
Proof.
  intros Hfree. unfold loggingBucketOf, afterLoggingPhase.
  destruct (truthy (loggingConfigOf cloudFrontDistributionProps)); [reflexivity|].
  erewrite bind_ok by (apply createCloudfrontLoggingBucket_run; by apply Hfree).
  reflexivity.
Qed.

Lemma distribution_run (scope : path) (cfg : gmap string value) (w : world) :
  tree w !! (scope ++ ["CloudFrontDistribution"]) = None →
  (cfDistribution <- newConstruct scope "CloudFrontDistribution" KDistribution (VObj cfg) ;;
   updateSecurityPolicy cfDistribution ;;
   ret cfDistribution) w
  = Ok (scope ++ ["CloudFrontDistribution"], afterDistribution scope cfg w).
Proof.
  intros Hfree.
  erewrite bind_ok by (apply newConstruct_free; exact Hfree).
  erewrite bind_ok by (apply updateSecurityPolicy_run; apply lookup_insert_eq).
  unfold ret, afterDistribution. cbn [tree journal].
  rewrite insert_insert_eq, <- app_assoc. reflexivity.
Qed.

(** * The entry points *)

Lemma idsNeeded_free (v : variant) (scope : path)
    (cloudFrontDistributionProps : option (gmap string value))
    (httpSecurityHeaders : value) (w : world) :
  allFree w scope (idsNeeded v cloudFrontDistributionProps httpSecurityHeaders) = true →
  (∀ id, id ∈ identityIds v → tree w !! (scope ++ [id]) = None) ∧
  (truthy (headerInjection v httpSecurityHeaders) = true →
   tree w !! (scope ++ ["SetHttpSecurityHeaders"]) = None ∧
   tree w !! (scope ++ ["SetHttpSecurityHeadersVersion"]) = None) ∧
  (truthy (loggingConfigOf cloudFrontDistributionProps) = false →
   tree w !! (scope ++ ["CloudfrontLoggingBucket"]) = None) ∧
  tree w !! (scope ++ ["CloudFrontDistribution"]) = None.
Proof.
  intros Hfree. unfold idsNeeded, edgeIds, loggingIds in Hfree.
  split; [|split; [|split]].
  - intros id Hid. apply (allFree_lookup _ _ _ _ Hfree).
    apply elem_of_app. by left.
  - intros Hon. rewrite Hon in Hfree.
    split; apply (allFree_lookup _ _ _ _ Hfree); in_ids.
  - intros Hnone. rewrite Hnone in Hfree.
    apply (allFree_lookup _ _ _ _ Hfree). in_ids.
  - apply (allFree_lookup _ _ _ _ Hfree). in_ids.
Qed.

Theorem CloudFrontDistributionForApiGateway_run (scope apiEndPoint : path)
    (cloudFrontDistributionProps : option (gmap string value))
    (httpSecurityHeaders : value) (w : world) :
  ready (ForApiGateway apiEndPoint) scope cloudFrontDistributionProps
    httpSecurityHeaders w = true →
  CloudFrontDistributionForApiGateway scope apiEndPoint cloudFrontDistributionProps
    httpSecurityHeaders w
  = Ok (scope ++ ["CloudFrontDistribution"],
        apiGatewayWorld scope apiEndPoint cloudFrontDistributionProps
          httpSecurityHeaders w).
Proof.
  intros [Hfree _]%andb_prop.
  apply idsNeeded_free in Hfree as (_ & Hedge & Hl & Hd).
  cbn [headerInjection] in Hedge.
  unfold CloudFrontDistributionForApiGateway. cbv zeta.
  erewrite bind_ok by (apply edgePhase_run; intros Hon; by apply Hedge).
  erewrite bind_ok.
  2:{ apply (loggingPhase_run scope cloudFrontDistributionProps
               (fun b => DefaultCloudFrontWebDistributionForApiGatewayProps apiEndPoint b _ _)).
      intros Hnone. rewrite afterEdgePhase_other by (by apply child_ne). by apply Hl. }
  apply distribution_run.
  rewrite afterLoggingPhase_other, afterEdgePhase_other by (by apply child_ne).
  exact Hd.
Qed.

Lemma grant_run (scope sourceBucket cfDistribution : path) (w : world) :
  isBucket w sourceBucket = true →
  (addToResourcePolicy sourceBucket
     (grantStatement sourceBucket (scope ++ ["CloudFrontOriginAccessIdentity"])) ;;
   setMetadata (sourceBucket ++ ["Policy"]) f16Metadata ;;
   ret cfDistribution) w
  = Ok (cfDistribution, afterGrant scope sourceBucket w).
Proof.
  intros Hb. unfold afterGrant, addToResourcePolicy, bind at 1. rewrite Hb. cbv zeta.
  destruct (tree w !! (sourceBucket ++ ["Policy"])) as [c|] eqn:Hpol.
  - erewrite bind_ok by reflexivity. rewrite Hpol.
    erewrite bind_ok by (apply patchResource_found; apply lookup_insert_eq).
    unfold ret. cbn [tree journal].
    rewrite insert_insert_eq, <- app_assoc. reflexivity.
  - erewrite bind_ok by (apply newConstruct_free; exact Hpol).
    cbn [tree]. rewrite lookup_insert_eq.
    erewrite bind_ok by (apply patchResource_found; apply lookup_insert_eq).
    unfold ret. cbn [tree journal].
    rewrite !insert_insert_eq, <- !app_assoc. reflexivity.
Qed.

Theorem CloudFrontDistributionForS3_run (scope sourceBucket : path)
    (cloudFrontDistributionProps : option (gmap string value))
    (httpSecurityHeaders : value) (w : world) :
  ready (ForS3 sourceBucket) scope cloudFrontDistributionProps httpSecurityHeaders w
  = true →
  CloudFrontDistributionForS3 scope sourceBucket cloudFrontDistributionProps
    httpSecurityHeaders w
  = Ok (scope ++ ["CloudFrontDistribution"],
        s3World scope sourceBucket cloudFrontDistributionProps httpSecurityHeaders w).
Proof.
  intros [Hfree Hb]%andb_prop.
  apply idsNeeded_free in Hfree as (Hid & Hedge & Hl & Hd).
  cbn [headerInjection identityIds] in Hedge, Hid.
  assert (tree w !! (scope ++ ["CloudFrontOriginAccessIdentity"]) = None) as Ho
    by (apply Hid; left).
  assert (tree w !! (scope ++ ["OAIImported"]) = None) as Hi
    by (apply Hid; right; left).
  unfold CloudFrontDistributionForS3, s3World.
  erewrite bind_ok by (apply newConstruct_free; exact Ho).
  erewrite bind_ok.
  2:{ apply newConstruct_free. cbn [tree].
      rewrite lookup_insert_ne by (by apply child_ne). exact Hi. }
  cbv zeta.
  match goal with
  | |- bind _ _ ?w0 = _ =>
      replace w0 with (afterIdentity scope w)
        by (unfold afterIdentity; cbn [tree journal]; rewrite <- app_assoc; reflexivity)
  end.
  erewrite bind_ok.
  2:{ apply edgePhase_run; intros Hon;
        rewrite afterIdentity_other by (by apply child_ne); by apply Hedge. }
  erewrite bind_ok.
  2:{ apply (loggingPhase_run scope cloudFrontDistributionProps
               (fun b => DefaultCloudFrontWebDistributionForS3Props sourceBucket b _ _ _)).
      intros Hnone.
      rewrite afterEdgePhase_other, afterIdentity_other by (by apply child_ne).
      by apply Hl. }
  erewrite bind_ok.
  2:{ apply newConstruct_free.
      rewrite afterLoggingPhase_other, afterEdgePhase_other, afterIdentity_other
        by (by apply child_ne).
      exact Hd. }
  erewrite bind_ok by (apply updateSecurityPolicy_run; apply lookup_insert_eq).
  cbn [tree journal]. rewrite insert_insert_eq, <- app_assoc.
  apply (grant_run scope sourceBucket).
  apply isBucket_lookup in Hb as (c & Hc & Hk).
  unfold isBucket.
  rewrite afterDistribution_other by (intros ->; congruence).
  erewrite afterLoggingPhase_stays; [by apply bool_decide_eq_true | |].
  { intros Hnone.
    rewrite afterEdgePhase_other, afterIdentity_other by (by apply child_ne).
    by apply Hl. }
  apply afterEdgePhase_stays;
    try (intros Hon; rewrite afterIdentity_other by (by apply child_ne); by apply Hedge).
  rewrite afterIdentity_other by (intros ->; congruence). exact Hc.
Qed.

Theorem provision_run (v : variant) (scope : path)
    (cloudFrontDistributionProps : option (gmap string value))
    (httpSecurityHeaders : value) (w : world) :
  ready v scope cloudFrontDistributionProps httpSecurityHeaders w = true →
  provision v scope cloudFrontDistributionProps httpSecurityHeaders w
  = Ok (scope ++ ["CloudFrontDistribution"],
        provisioned v scope cloudFrontDistributionProps httpSecurityHeaders w).
Proof.
  destruct v as [apiEndPoint | sourceBucket]; cbn [provision provisioned].
  - apply CloudFrontDistributionForApiGateway_run.
  - apply CloudFrontDistributionForS3_run.
Qed.

(** * The constructs of the final world *)

Lemma afterEdgePhase_function (scope : path) (flag : value) (w : world) :
  truthy flag = true →
  tree (afterEdgePhase scope flag w) !! (scope ++ ["SetHttpSecurityHeaders"])
  = Some edgeFunctionConstruct.
Proof.
  intros Ht. unfold afterEdgePhase. rewrite Ht.
  cbn [afterEdgeVersion afterEdgeFunction tree].
  rewrite lookup_insert_ne by (by apply child_ne). apply lookup_insert_eq.
Qed.

Lemma afterEdgePhase_version (scope : path) (flag : value) (w : world) :
  truthy flag = true →
  tree (afterEdgePhase scope flag w) !! (scope ++ ["SetHttpSecurityHeadersVersion"])
  = Some (mkConstruct KVersion
            (VObj {[ "lambda" := VRef (scope ++ ["SetHttpSecurityHeaders"]) ]})).
Proof.
  intros Ht. unfold afterEdgePhase. rewrite Ht.
  cbn [afterEdgeVersion tree]. apply lookup_insert_eq.
Qed.

Lemma afterLoggingPhase_bucket (scope : path)
    (cloudFrontDistributionProps : option (gmap string value)) (w : world) :
  truthy (loggingConfigOf cloudFrontDistributionProps) = false →
  tree (afterLoggingPhase scope cloudFrontDistributionProps w)
    !! (scope ++ ["CloudfrontLoggingBucket"])
  = Some loggingBucketConstruct.
Proof.
  intros Ht. unfold afterLoggingPhase. rewrite Ht.
  cbn [afterLoggingBucket tree]. apply lookup_insert_eq.
Qed.

Lemma provisioned_policy_before (scope sourceBucket : path)
    (cloudFrontDistributionProps : option (gmap string value))
    (flag : value) (cfg : gmap string value) (w : world) :
  tree (afterDistribution scope cfg
          (afterLoggingPhase scope cloudFrontDistributionProps
             (afterEdgePhase scope flag (afterIdentity scope w))))
    !! (sourceBucket ++ ["Policy"])
  = tree w !! (sourceBucket ++ ["Policy"]).
Proof.
  by rewrite afterDistribution_other, afterLoggingPhase_other, afterEdgePhase_other,
    afterIdentity_other by (by apply child_ne).
Qed.

Lemma provisioned_distribution (v : variant) (scope : path)
    (cloudFrontDistributionProps : option (gmap string value))
    (httpSecurityHeaders : value) (w : world) :
  tree (provisioned v scope cloudFrontDistributionProps httpSecurityHeaders w)
    !! (scope ++ ["CloudFrontDistribution"])
  = Some (distributionConstruct
            (cfprops (resolvedDefaults v scope cloudFrontDistributionProps
                        httpSecurityHeaders)
                     cloudFrontDistributionProps)).
Proof.
  destruct v as [apiEndPoint | sourceBucket];
    cbn [provisioned resolvedDefaults]; unfold apiGatewayWorld, s3World.
  - cbn [afterDistribution tree]. apply lookup_insert_eq.
  - rewrite afterGrant_other by (by apply child_ne).
    cbn [afterDistribution tree]. apply lookup_insert_eq.
Qed.

Lemma provisioned_function (v : variant) (scope : path)
    (cloudFrontDistributionProps : option (gmap string value))
    (httpSecurityHeaders : value) (w : world) :
  truthy (headerInjection v httpSecurityHeaders) = true →
  tree (provisioned v scope cloudFrontDistributionProps httpSecurityHeaders w)
    !! (scope ++ ["SetHttpSecurityHeaders"])
  = Some edgeFunctionConstruct.
Proof.
  intros Ht.
  destruct v as [apiEndPoint | sourceBucket];
    cbn [provisioned headerInjection] in *; unfold apiGatewayWorld, s3World.
  - rewrite afterDistribution_other, afterLoggingPhase_other by (by apply child_ne).
    by apply afterEdgePhase_function.
  - rewrite afterGrant_other, afterDistribution_other, afterLoggingPhase_other
      by (by apply child_ne).
    by apply afterEdgePhase_function.
Qed.

Lemma provisioned_version (v : variant) (scope : path)
    (cloudFrontDistributionProps : option (gmap string value))
    (httpSecurityHeaders : value) (w : world) :
  truthy (headerInjection v httpSecurityHeaders) = true →
  tree (provisioned v scope cloudFrontDistributionProps httpSecurityHeaders w)
    !! (scope ++ ["SetHttpSecurityHeadersVersion"])
  = Some (mkConstruct KVersion
            (VObj {[ "lambda" := VRef (scope ++ ["SetHttpSecurityHeaders"]) ]})).
Proof.
  intros Ht.
  destruct v as [apiEndPoint | sourceBucket];
    cbn [provisioned headerInjection] in *; unfold apiGatewayWorld, s3World.
  - rewrite afterDistribution_other, afterLoggingPhase_other by (by apply child_ne).
    by apply afterEdgePhase_version.
  - rewrite afterGrant_other, afterDistribution_other, afterLoggingPhase_other
      by (by apply child_ne).
    by apply afterEdgePhase_version.
Qed.

Lemma provisioned_loggingBucket (v : variant) (scope : path)
    (cloudFrontDistributionProps : option (gmap string value))
    (httpSecurityHeaders : value) (w : world) :
  truthy (loggingConfigOf cloudFrontDistributionProps) = false →
  tree (provisioned v scope cloudFrontDistributionProps httpSecurityHeaders w)
    !! (scope ++ ["CloudfrontLoggingBucket"])
  = Some loggingBucketConstruct.
Proof.
  intros Ht.
  destruct v as [apiEndPoint | sourceBucket];
    cbn [provisioned]; unfold apiGatewayWorld, s3World.
  - rewrite afterDistribution_other by (by apply child_ne).
    by apply afterLoggingPhase_bucket.
  - rewrite afterGrant_other, afterDistribution_other by (by apply child_ne).
    by apply afterLoggingPhase_bucket.
Qed.

Lemma s3World_policy (scope sourceBucket : path)
    (cloudFrontDistributionProps : option (gmap string value))
    (httpSecurityHeaders : value) (w : world) :
  tree (s3World scope sourceBucket cloudFrontDistributionProps httpSecurityHeaders w)
    !! (sourceBucket ++ ["Policy"])
  = Some (grantedPolicy sourceBucket
            (grantStatement sourceBucket (scope ++ ["CloudFrontOriginAccessIdentity"]))
            (tree w !! (sourceBucket ++ ["Policy"]))).
Proof.
  unfold s3World, afterGrant. cbv zeta. cbn [tree].
  rewrite lookup_insert_eq. by rewrite provisioned_policy_before.
Qed.

Lemma s3World_identity (scope sourceBucket : path)
    (cloudFrontDistributionProps : option (gmap string value))
    (httpSecurityHeaders : value) (w : world) :
  tree (s3World scope sourceBucket cloudFrontDistributionProps httpSecurityHeaders w)
    !! (scope ++ ["OAIImported"])
  = Some (mkConstruct KOriginAccessIdentity
            (VObj {[ "originAccessIdentityName" :=
                       VTok (TRef (scope ++ ["CloudFrontOriginAccessIdentity"])) ]})).
Proof.
  unfold s3World.
  rewrite afterGrant_other, afterDistribution_other, afterLoggingPhase_other,
    afterEdgePhase_other by (by apply child_ne).
  cbn [afterIdentity tree]. apply lookup_insert_eq.
Qed.

(** * The journal of a run *)

Lemma afterEdgePhase_journal (scope : path) (flag : value) (w : world) :
  journal (afterEdgePhase scope flag w) = journal w ++ edgeEvents scope flag.
Proof.
  unfold afterEdgePhase, edgeEvents. destruct (truthy flag).
  - cbn [afterEdgeVersion afterEdgeFunction journal]. by rewrite <- app_assoc.
  - by rewrite app_nil_r.
Qed.

Lemma afterLoggingPhase_journal (scope : path)
    (cloudFrontDistributionProps : option (gmap string value)) (w : world) :
  journal (afterLoggingPhase scope cloudFrontDistributionProps w)
  = journal w ++ loggingEvents scope cloudFrontDistributionProps.
Proof.
  unfold afterLoggingPhase, loggingEvents.
  destruct (truthy (loggingConfigOf cloudFrontDistributionProps)).
  - by rewrite app_nil_r.
  - reflexivity.
Qed.

Lemma provisioned_since (v : variant) (scope : path)
    (cloudFrontDistributionProps : option (gmap string value))
    (httpSecurityHeaders : value) (w : world) :
  since w (provisioned v scope cloudFrontDistributionProps httpSecurityHeaders w)
  = preparationEvents v scope cloudFrontDistributionProps httpSecurityHeaders
    ++ distributionEvents scope ++ completionEvents v scope w.
Proof.
  apply since_app.
  destruct v as [apiEndPoint | sourceBucket];
    unfold provisioned, preparationEvents, completionEvents, headerInjection,
      apiGatewayWorld, s3World, distributionEvents.
  - cbn [afterDistribution journal].
    rewrite afterLoggingPhase_journal, afterEdgePhase_journal.
    rewrite app_nil_r, <- !app_assoc. reflexivity.
  - unfold afterGrant. cbv zeta. cbn [journal].
    rewrite provisioned_policy_before.
    cbn [afterDistribution journal].
    rewrite afterLoggingPhase_journal, afterEdgePhase_journal.
    cbn [afterIdentity journal]. unfold grantEvents, identityEvents.
    rewrite <- !app_assoc. reflexivity.
Qed.

Lemma created_function_run (v : variant) (scope : path)
    (cloudFrontDistributionProps : option (gmap string value))
    (httpSecurityHeaders : value) (w : world) :
  created KFunction
    (since w (provisioned v scope cloudFrontDistributionProps httpSecurityHeaders w))
  = if truthy (headerInjection v httpSecurityHeaders)
    then [scope ++ ["SetHttpSecurityHeaders"]] else [].
Proof.
  rewrite provisioned_since.
  unfold preparationEvents, edgeEvents, loggingEvents, completionEvents, grantEvents.
  destruct v as [apiEndPoint | sourceBucket];
    destruct (truthy (headerInjection _ httpSecurityHeaders));
    destruct (truthy (loggingConfigOf cloudFrontDistributionProps));
    try destruct (tree w !! (sourceBucket ++ ["Policy"]));
    reflexivity.
Qed.

Lemma created_version_run (v : variant) (scope : path)
    (cloudFrontDistributionProps : option (gmap string value))
    (httpSecurityHeaders : value) (w : world) :
  created KVersion
    (since w (provisioned v scope cloudFrontDistributionProps httpSecurityHeaders w))
  = if truthy (headerInjection v httpSecurityHeaders)
    then [scope ++ ["SetHttpSecurityHeadersVersion"]] else [].
Proof.
  rewrite provisioned_since.
  unfold preparationEvents, edgeEvents, loggingEvents, completionEvents, grantEvents.
  destruct v as [apiEndPoint | sourceBucket];
    destruct (truthy (headerInjection _ httpSecurityHeaders));
    destruct (truthy (loggingConfigOf cloudFrontDistributionProps));
    try destruct (tree w !! (sourceBucket ++ ["Policy"]));
    reflexivity.
Qed.

Lemma created_bucket_run (v : variant) (scope : path)
    (cloudFrontDistributionProps : option (gmap string value))
    (httpSecurityHeaders : value) (w : world) :
  created KBucket
    (since w (provisioned v scope cloudFrontDistributionProps httpSecurityHeaders w))
  = if truthy (loggingConfigOf cloudFrontDistributionProps)
    then [] else [scope ++ ["CloudfrontLoggingBucket"]].
Proof.
  rewrite provisioned_since.
  unfold preparationEvents, edgeEvents, loggingEvents, completionEvents, grantEvents.
  destruct v as [apiEndPoint | sourceBucket];
    destruct (truthy (headerInjection _ httpSecurityHeaders));
    destruct (truthy (loggingConfigOf cloudFrontDistributionProps));
    try destruct (tree w !! (sourceBucket ++ ["Policy"]));
    reflexivity.
Qed.

(** * Synthesis of the patched resources *)

Lemma edgeFunction_no_environment (rendered : gmap string value) :
  propertiesOf (toCloudFormation rendered (defaultChild edgeFunctionConstruct))
    !! "Environment" = None.
Proof.
  unfold toCloudFormation, propertiesOf.
  cbn [edgeFunctionConstruct defaultChild rawOverrides cfnMetadata foldl fst snd
       applyOverride].
  rewrite lookup_insert_eq. cbn [default asObject].
  rewrite lookup_insert_eq. cbn [default asObject].
  apply lookup_delete_eq.
Qed.

Lemma loggingBucket_accessControl (rendered : gmap string value) :
  propertiesOf (toCloudFormation rendered (defaultChild loggingBucketConstruct))
    !! "AccessControl" = Some (VStr "LogDeliveryWrite").
Proof.
  unfold toCloudFormation, propertiesOf.
  cbn [loggingBucketConstruct defaultChild rawOverrides cfnMetadata foldl fst snd
       applyOverride].
  rewrite lookup_insert_eq. cbn [default asObject].
  rewrite lookup_insert_eq. cbn [default asObject].
  apply lookup_insert_eq.
Qed.

(** * Readers of a configuration look at one key only *)

Lemma attachedEdgeVersions_key (cfg cfg' : gmap string value) :
  cfg !! "originConfigs" = cfg' !! "originConfigs" →
  attachedEdgeVersions cfg = attachedEdgeVersions cfg'.
Proof.
  intros Heq. unfold attachedEdgeVersions, defaultBehaviors, behaviorsOf.
  cbn [getProp]. by rewrite Heq.
Qed.

Lemma s3Origins_key (cfg cfg' : gmap string value) :
  cfg !! "originConfigs" = cfg' !! "originConfigs" →
  s3Origins cfg = s3Origins cfg'.
Proof. intros Heq. unfold s3Origins. cbn [getProp]. by rewrite Heq. Qed.

Lemma cfprops_lookup (defaultprops : gmap string value)
    (cloudFrontDistributionProps : option (gmap string value)) (k : string) :
  cfprops defaultprops cloudFrontDistributionProps !! k
  = match userValue cloudFrontDistributionProps k with
    | Some x => Some x
    | None => defaultprops !! k
    end.
Proof.
  destruct cloudFrontDistributionProps as [userProps|]; cbn [cfprops userValue];
    [|reflexivity].
  unfold overrideProps. rewrite lookup_union.
  destruct (userProps !! k), (defaultprops !! k); reflexivity.
Qed.

Lemma cfprops_empty (defaultprops : gmap string value) :
  cfprops defaultprops (Some ∅) = defaultprops.
Proof. unfold cfprops, overrideProps. apply (left_id ∅ (∪)). Qed.

Lemma apiGatewayProps_attached (apiEndPoint : path)
    (loggingBucket setHttpSecurityHeaders edgeLambda : value) :
  attachedEdgeVersions
    (DefaultCloudFrontWebDistributionForApiGatewayProps apiEndPoint loggingBucket
       setHttpSecurityHeaders edgeLambda)
  = if truthy setHttpSecurityHeaders then [edgeLambda] else [].
Proof.
  unfold attachedEdgeVersions, defaultBehaviors, behaviorsOf,
    DefaultCloudFrontWebDistributionForApiGatewayProps, defaultBehavior.
  cbn [getProp]. rewrite lookup_insert_eq.
  destruct (truthy setHttpSecurityHeaders); reflexivity.
Qed.

Lemma s3Props_attached (sourceBucket : path)
    (loggingBucket originAccessIdentity setHttpSecurityHeaders edgeLambda : value) :
  attachedEdgeVersions
    (DefaultCloudFrontWebDistributionForS3Props sourceBucket loggingBucket
       originAccessIdentity setHttpSecurityHeaders edgeLambda)
  = if truthy setHttpSecurityHeaders then [edgeLambda] else [].
Proof.
  unfold attachedEdgeVersions, defaultBehaviors, behaviorsOf,
    DefaultCloudFrontWebDistributionForS3Props, defaultBehavior.
  cbn [getProp]. rewrite lookup_insert_eq.
  destruct (truthy setHttpSecurityHeaders); reflexivity.
Qed.

Lemma resolvedDefaults_attached (v : variant) (scope : path)
    (cloudFrontDistributionProps : option (gmap string value))
    (httpSecurityHeaders : value) :
  attachedEdgeVersions
    (resolvedDefaults v scope cloudFrontDistributionProps httpSecurityHeaders)
  = if truthy (headerInjection v httpSecurityHeaders)
    then [VRef (scope ++ ["SetHttpSecurityHeadersVersion"])] else [].
Proof.
  destruct v as [apiEndPoint | sourceBucket];
    cbn [resolvedDefaults headerInjection];
    unfold apiGatewayDefaults, s3Defaults, edgeLambdaVersionOf.
  - rewrite apiGatewayProps_attached.
    by destruct (truthy (apiHttpSecurityHeaders httpSecurityHeaders)).
  - rewrite s3Props_attached.
    by destruct (truthy (s3HttpSecurityHeaders httpSecurityHeaders)).
Qed.

Lemma s3Props_origins (sourceBucket : path)
    (loggingBucket originAccessIdentity setHttpSecurityHeaders edgeLambda : value) :
  s3Origins
    (DefaultCloudFrontWebDistributionForS3Props sourceBucket loggingBucket
       originAccessIdentity setHttpSecurityHeaders edgeLambda)
  = [(VRef sourceBucket, originAccessIdentity)].
Proof.
  unfold s3Origins, DefaultCloudFrontWebDistributionForS3Props.
  cbn [getProp]. rewrite lookup_insert_eq. reflexivity.
Qed.

(** The final configuration reads like the defaults wherever the caller's
    object has no [originConfigs] of its own. *)
Lemma cfprops_originConfigs (defaultprops : gmap string value)
    (cloudFrontDistributionProps : option (gmap string value)) :
  userValue cloudFrontDistributionProps "originConfigs" = None →
  cfprops defaultprops cloudFrontDistributionProps !! "originConfigs"
  = defaultprops !! "originConfigs".
Proof. intros Hnone. by rewrite cfprops_lookup, Hnone. Qed.

(** * Calls the framework rejects

    When one of the ids a call registers is taken, the call throws at the
    first such id; [ready] is thus exactly what a call needs of the scope. *)

Lemma isFree_false (w : world) (scope : path) (id : string) :
  isFree w scope id = false → is_Some (tree w !! (scope ++ [id])).
Proof. unfold isFree. destruct (tree w !! (scope ++ [id])); [eauto | discriminate]. Qed.

Lemma isFree_frame (w w' : world) (scope : path) (id : string) :
  tree w' !! (scope ++ [id]) = tree w !! (scope ++ [id]) →
  isFree w' scope id = isFree w scope id.
Proof. unfold isFree. by intros ->. Qed.

Lemma edgePhase_rejects (scope : path) (flag : value) (w : world) :
  allFree w scope (edgeIds flag) = false →
  ∃ p,
    (if truthy flag then
       fn <- defaultLambdaEdgeFunction scope ;;
       version <- newConstruct scope "SetHttpSecurityHeadersVersion" KVersion
                    (VObj {[ "lambda" := VRef fn ]}) ;;
       ret (VRef version)
     else ret VUndefined) w
    = Err (DuplicateId p).
Proof.
  unfold edgeIds, allFree. destruct (truthy flag); [|discriminate].
  cbn [forallb]. rewrite andb_true_r.
  destruct (isFree w scope "SetHttpSecurityHeaders") eqn:Hf; cbn [andb].
  - intros Hv%isFree_false. apply isFree_lookup in Hf.
    eexists.
    erewrite bind_ok by (apply defaultLambdaEdgeFunction_run; exact Hf).
    apply bind_err, newConstruct_taken. cbn [afterEdgeFunction tree].
    by rewrite lookup_insert_ne by (by apply child_ne).
  - intros _. apply isFree_false in Hf. eexists.
    apply bind_err. unfold defaultLambdaEdgeFunction, deployLambdaFunction.
    by apply bind_err, newConstruct_taken.
Qed.

Lemma loggingPhase_rejects (scope : path)
    (cloudFrontDistributionProps : option (gmap string value))
    (resolve : value → gmap string value) (w : world) :
  allFree w scope (loggingIds cloudFrontDistributionProps) = false →
  ∃ p,
    (if truthy (loggingConfigOf cloudFrontDistributionProps) then
       ret (resolve (getProp (loggingConfigOf cloudFrontDistributionProps) "bucket"))
     else
       loggingBucket <- createCloudfrontLoggingBucket scope ;;
       ret (resolve (VRef loggingBucket))) w
    = Err (DuplicateId p).
Proof.
  unfold loggingIds, allFree.
  destruct (truthy (loggingConfigOf cloudFrontDistributionProps)); [discriminate|].
  cbn [forallb]. rewrite andb_true_r. intros Hl%isFree_false.
  eexists. apply bind_err. unfold createCloudfrontLoggingBucket.
  by apply bind_err, newConstruct_taken.
Qed.

Lemma allFree_frame (w w' : world) (scope : path) (ids : list string) :
  (∀ id, id ∈ ids → tree w' !! (scope ++ [id]) = tree w !! (scope ++ [id])) →
  allFree w' scope ids = allFree w scope ids.
Proof.
  unfold allFree. induction ids as [|id ids IH]; intros Hframe; [reflexivity|].
  cbn [forallb]. rewrite (isFree_frame w w') by (apply Hframe; left).
  rewrite IH; [reflexivity|]. intros id' Hid'. apply Hframe. by right.
Qed.

Lemma allFree_loggingIds_frame (w w' : world) (scope : path)
    (cloudFrontDistributionProps : option (gmap string value)) :
  tree w' !! (scope ++ ["CloudfrontLoggingBucket"])
  = tree w !! (scope ++ ["CloudfrontLoggingBucket"]) →
  allFree w' scope (loggingIds cloudFrontDistributionProps)
  = allFree w scope (loggingIds cloudFrontDistributionProps).
Proof.
  intros Hframe. unfold loggingIds, allFree.
  destruct (truthy (loggingConfigOf cloudFrontDistributionProps)); [reflexivity|].
  cbn [forallb]. by rewrite (isFree_frame w w').
Qed.

Lemma allFree_guards (scope : path) (flag : value)
    (cloudFrontDistributionProps : option (gmap string value)) (w : world) :
  (allFree w scope (edgeIds flag) = true →
   (truthy flag = true → tree w !! (scope ++ ["SetHttpSecurityHeaders"]) = None) ∧
   (truthy flag = true →
    tree w !! (scope ++ ["SetHttpSecurityHeadersVersion"]) = None)) ∧
  (allFree w scope (loggingIds cloudFrontDistributionProps) = true →
   truthy (loggingConfigOf cloudFrontDistributionProps) = false →
   tree w !! (scope ++ ["CloudfrontLoggingBucket"]) = None).
Proof.
  unfold edgeIds, loggingIds. split.
  - intros Hfree. split; intros Hon; rewrite Hon in Hfree;
      apply (allFree_lookup _ _ _ _ Hfree); in_ids.
  - intros Hfree Hnone. rewrite Hnone in Hfree.
    apply (allFree_lookup _ _ _ _ Hfree). in_ids.
Qed.

(** The part of the two entry points after the identity phase. *)
Lemma tail_rejects (scope : path)
    (cloudFrontDistributionProps : option (gmap string value))
    (flag : value) (resolve : value → value → gmap string value)
    {A} (rest : path → M A) (w : world) :
  allFree w scope
    (edgeIds flag ++ loggingIds cloudFrontDistributionProps ++ ["CloudFrontDistribution"])
  = false →
  ∃ p,
    (edgeLambdaVersion <-
       (if truthy flag then
          fn <- defaultLambdaEdgeFunction scope ;;
          version <- newConstruct scope "SetHttpSecurityHeadersVersion" KVersion
                       (VObj {[ "lambda" := VRef fn ]}) ;;
          ret (VRef version)
        else ret VUndefined) ;;
     defaultprops <-
       (if truthy (loggingConfigOf cloudFrontDistributionProps) then
          ret (resolve
                 (getProp (loggingConfigOf cloudFrontDistributionProps) "bucket")
                 edgeLambdaVersion)
        else
          loggingBucket <- createCloudfrontLoggingBucket scope ;;
          ret (resolve (VRef loggingBucket) edgeLambdaVersion)) ;;
     cfDistribution <- newConstruct scope "CloudFrontDistribution" KDistribution
                         (VObj (cfprops defaultprops cloudFrontDistributionProps)) ;;
     rest cfDistribution) w
    = Err (DuplicateId p).
Proof.
  unfold allFree. rewrite !forallb_app.
  fold (allFree w scope (edgeIds flag)).
  fold (allFree w scope (loggingIds cloudFrontDistributionProps)).
  destruct (allFree_guards scope flag cloudFrontDistributionProps w) as [Hge _].
  destruct (allFree w scope (edgeIds flag)) eqn:He; cbn [andb].
  2:{ intros _. destruct (edgePhase_rejects scope flag w He) as [p Hp].
      exists p. by apply bind_err. }
  destruct (Hge eq_refl) as [Hf Hv].
  erewrite bind_ok by (by apply edgePhase_run).
  destruct (allFree w scope (loggingIds cloudFrontDistributionProps)) eqn:Hl;
    cbn [andb forallb].
  2:{ intros _.
      rewrite <- (allFree_loggingIds_frame w (afterEdgePhase scope flag w)) in Hl
        by (apply afterEdgePhase_other; by apply child_ne).
      destruct (loggingPhase_rejects scope cloudFrontDistributionProps
                  (fun b => resolve b (edgeLambdaVersionOf scope flag)) _ Hl) as [p Hp].
      exists p. by apply bind_err. }
  rewrite andb_true_r. intros Hd%isFree_false.
  destruct (allFree_guards scope flag cloudFrontDistributionProps w) as [_ Hgl].
  erewrite bind_ok.
  2:{ apply (loggingPhase_run scope cloudFrontDistributionProps
               (fun b => resolve b (edgeLambdaVersionOf scope flag))).
      intros Hnone. rewrite afterEdgePhase_other by (by apply child_ne).
      by apply Hgl. }
  eexists. apply bind_err, newConstruct_taken.
  by rewrite afterLoggingPhase_other, afterEdgePhase_other by (by apply child_ne).
Qed.

Theorem provision_rejects (v : variant) (scope : path)
    (cloudFrontDistributionProps : option (gmap string value))
    (httpSecurityHeaders : value) (w : world) :
  allFree w scope (idsNeeded v cloudFrontDistributionProps httpSecurityHeaders) = false →
  ∃ p,
    provision v scope cloudFrontDistributionProps httpSecurityHeaders w
    = Err (DuplicateId p).
Proof.
  unfold idsNeeded.
  destruct v as [apiEndPoint | sourceBucket]; cbn [provision identityIds headerInjection].
  - cbn [app]. intros Hfree.
    apply (tail_rejects scope cloudFrontDistributionProps
             (apiHttpSecurityHeaders httpSecurityHeaders)
             (fun b e => DefaultCloudFrontWebDistributionForApiGatewayProps apiEndPoint b
                           (apiHttpSecurityHeaders httpSecurityHeaders) e)
             (fun d => updateSecurityPolicy d ;; ret d) w Hfree).
  - unfold allFree at 1. cbn [app forallb].
    destruct (isFree w scope "CloudFrontOriginAccessIdentity") eqn:Ho; cbn [andb].
    2:{ intros _. apply isFree_false in Ho. eexists.
        unfold CloudFrontDistributionForS3. by apply bind_err, newConstruct_taken. }
    apply isFree_lookup in Ho.
    destruct (isFree w scope "OAIImported") eqn:Hi; cbn [andb].
    2:{ intros _. apply isFree_false in Hi. eexists.
        unfold CloudFrontDistributionForS3.
        erewrite bind_ok by (apply newConstruct_free; exact Ho).
        apply bind_err, newConstruct_taken. cbn [tree].
        by rewrite lookup_insert_ne by (by apply child_ne). }
    apply isFree_lookup in Hi.
    fold (allFree w scope
            (edgeIds (s3HttpSecurityHeaders httpSecurityHeaders) ++
             loggingIds cloudFrontDistributionProps ++ ["CloudFrontDistribution"])).
    intros Hfree. unfold CloudFrontDistributionForS3.
    erewrite bind_ok by (apply newConstruct_free; exact Ho).
    erewrite bind_ok.
    2:{ apply newConstruct_free. cbn [tree].
        rewrite lookup_insert_ne by (by apply child_ne). exact Hi. }
    cbv zeta.
    match goal with
    | |- ∃ p, bind _ _ ?w0 = _ =>
        replace w0 with (afterIdentity scope w)
          by (unfold afterIdentity; cbn [tree journal]; rewrite <- app_assoc;
              reflexivity)
    end.
    apply (tail_rejects scope cloudFrontDistributionProps
             (s3HttpSecurityHeaders httpSecurityHeaders)
             (fun b e => DefaultCloudFrontWebDistributionForS3Props sourceBucket b
                           (VRef (scope ++ ["OAIImported"]))
                           (s3HttpSecurityHeaders httpSecurityHeaders) e)).
    erewrite allFree_frame; [exact Hfree|]. intros id Hid.
    apply afterIdentity_other; apply child_ne; intros ->;
      unfold edgeIds, loggingIds in Hid;
      destruct (truthy (s3HttpSecurityHeaders httpSecurityHeaders)),
        (truthy (loggingConfigOf cloudFrontDistributionProps));
      not_in_ids Hid.
Qed.

(** * The properties of the module *)

(** C1, as amended. For the API variant, a falsy [httpSecurityHeaders] other
    than the boolean [false] ([undefined], [null], [0], the empty string)
    leaves header injection enabled: exactly one edge function and one
    version of it are created, the resolved default configuration attaches
    that version to its default behavior, and so does the distribution
    unless the caller's object has [originConfigs] of its own. *)
Theorem api_falsy_headers_still_injected (scope apiEndPoint : path)
    (cloudFrontDistributionProps : option (gmap string value))
    (httpSecurityHeaders : value) (w : world) :
  ready (ForApiGateway apiEndPoint) scope cloudFrontDistributionProps
    httpSecurityHeaders w = true →
  truthy httpSecurityHeaders = false →
  httpSecurityHeaders ≠ VBool false →
  ∃ d w',
    CloudFrontDistributionForApiGateway scope apiEndPoint
      cloudFrontDistributionProps httpSecurityHeaders w = Ok (d, w') ∧
    created KFunction (since w w') = [scope ++ ["SetHttpSecurityHeaders"]] ∧
    created KVersion (since w w') = [scope ++ ["SetHttpSecurityHeadersVersion"]] ∧
    attachedEdgeVersions
      (apiGatewayDefaults scope apiEndPoint cloudFrontDistributionProps
         httpSecurityHeaders)
    = [VRef (scope ++ ["SetHttpSecurityHeadersVersion"])] ∧
    (userValue cloudFrontDistributionProps "originConfigs" = None →
     ∃ c cfg, tree w' !! d = Some c ∧ props c = VObj cfg ∧
       attachedEdgeVersions cfg = [VRef (scope ++ ["SetHttpSecurityHeadersVersion"])]).
Proof.
  intros Hready Hfalsy _.
  pose proof (apiHttpSecurityHeaders_truthy httpSecurityHeaders) as Hon.
  eexists _, _. split; [exact (provision_run (ForApiGateway apiEndPoint) _ _ _ _ Hready)|].
  change (apiGatewayWorld scope apiEndPoint cloudFrontDistributionProps
            httpSecurityHeaders w)
    with (provisioned (ForApiGateway apiEndPoint) scope cloudFrontDistributionProps
            httpSecurityHeaders w).
  change (apiGatewayDefaults scope apiEndPoint cloudFrontDistributionProps
            httpSecurityHeaders)
    with (resolvedDefaults (ForApiGateway apiEndPoint) scope
            cloudFrontDistributionProps httpSecurityHeaders).
  rewrite created_function_run, created_version_run, resolvedDefaults_attached.
  cbn [headerInjection]. rewrite Hon. repeat split.
  intros Hown. eexists _, _. split; [apply provisioned_distribution|].
  split; [reflexivity|].
  erewrite attachedEdgeVersions_key by (by apply cfprops_originConfigs).
  rewrite resolvedDefaults_attached. cbn [headerInjection]. by rewrite Hon.
Qed.

(** The logging bucket of a call whose caller says nothing on logging. For
    either entry point, when the caller's object is absent or its
    [loggingConfig] property is absent or falsy, exactly one logging bucket
    is created, and its resource declaration has [AccessControl] set to
    [LogDeliveryWrite] whatever the framework rendered there. *)
Theorem logging_bucket_created_without_loggingConfig (v : variant) (scope : path)
    (cloudFrontDistributionProps : option (gmap string value))
    (httpSecurityHeaders : value) (w : world) :
  ready v scope cloudFrontDistributionProps httpSecurityHeaders w = true →
  truthy (loggingConfigOf cloudFrontDistributionProps) = false →
  ∃ d w',
    provision v scope cloudFrontDistributionProps httpSecurityHeaders w = Ok (d, w') ∧
    created KBucket (since w w') = [scope ++ ["CloudfrontLoggingBucket"]] ∧
    ∃ b, tree w' !! (scope ++ ["CloudfrontLoggingBucket"]) = Some b ∧
      kind_of b = KBucket ∧
      ∀ rendered : gmap string value,
        propertiesOf (toCloudFormation rendered (defaultChild b)) !! "AccessControl"
        = Some (VStr "LogDeliveryWrite").
Proof.
  intros Hready Hnone.
  eexists _, _. split; [by apply provision_run|].
  rewrite created_bucket_run, Hnone. split; [reflexivity|].
  exists loggingBucketConstruct. split; [by apply provisioned_loggingBucket|].
  split; [reflexivity|]. apply loggingBucket_accessControl.
Qed.

(** C3. Merge overwrite law: in the final configuration a top-level key of
    the caller's object has the caller's value as it is, whatever the
    default for that key was, and every other key has its default value. *)
Theorem override_replaces_top_level_keys (defaultprops userProps : gmap string value)
    (k : string) :
  overrideProps defaultprops userProps !! k
  = match userProps !! k with
    | Some x => Some x
    | None => defaultprops !! k
    end ∧
  cfprops defaultprops (Some userProps) !! k
  = overrideProps defaultprops userProps !! k.
Proof.
  split; [|reflexivity].
  apply (cfprops_lookup defaultprops (Some userProps) k).
Qed.

(** C4. Merge idempotence: an empty caller object leaves the resolved
    default configuration as it is, and either entry point then does
    exactly what it does without a caller object. *)
Theorem empty_override_is_identity (defaultprops : gmap string value) (v : variant)
    (scope : path) (httpSecurityHeaders : value) (w : world) :
  cfprops defaultprops (Some ∅) = defaultprops ∧
  provision v scope (Some ∅) httpSecurityHeaders w
  = provision v scope None httpSecurityHeaders w.
Proof.
  split; [apply cfprops_empty|].
  destruct v as [apiEndPoint | sourceBucket]; cbn [provision].
  - unfold CloudFrontDistributionForApiGateway. cbv zeta.
    apply bind_ext. intros edgeLambdaVersion w1.
    change (loggingConfigOf (Some ∅)) with (loggingConfigOf None).
    apply bind_ext. intros defaultprops' w2.
    by rewrite cfprops_empty.
  - unfold CloudFrontDistributionForS3. cbv zeta.
    apply bind_ext. intros cfnOrigAccessId w1.
    apply bind_ext. intros oaiImported w2.
    apply bind_ext. intros edgeLambdaVersion w3.
    change (loggingConfigOf (Some ∅)) with (loggingConfigOf None).
    apply bind_ext. intros defaultprops' w4.
    by rewrite cfprops_empty.
Qed.

(** C5, as amended. For the storage variant with a source bucket B and no
    logging configuration of the caller: an origin-access identity is
    created and imported, and the resolved default configuration has B,
    read through that identity, as its origin, which is also the origin of
    the distribution unless the caller's object has [originConfigs] of its
    own; a logging bucket other than B is created; the policy of B gets one
    more statement, which allows [s3:GetObject] on every object of B to the
    canonical user of the created identity; no statement is added before
    the distribution is created, and that one is added after; the policy
    resource carries exactly one suppression, rule F16 with its
    justification. *)
Theorem s3_scenario_without_logging_config (scope sourceBucket : path)
    (cloudFrontDistributionProps : option (gmap string value))
    (httpSecurityHeaders : value) (w : world) :
  ready (ForS3 sourceBucket) scope cloudFrontDistributionProps httpSecurityHeaders w
  = true →
  truthy (loggingConfigOf cloudFrontDistributionProps) = false →
  let oai := scope ++ ["CloudFrontOriginAccessIdentity"] in
  let imported := scope ++ ["OAIImported"] in
  let loggingBucket := scope ++ ["CloudfrontLoggingBucket"] in
  let policy := sourceBucket ++ ["Policy"] in
  let statement :=
    {| actions := ["s3:GetObject"];
       resources := [TArnForObjects sourceBucket "*"];
       principals := [CanonicalUserPrincipal (TAttr oai "S3CanonicalUserId")] |} in
  ∃ d w',
    CloudFrontDistributionForS3 scope sourceBucket cloudFrontDistributionProps
      httpSecurityHeaders w = Ok (d, w') ∧
    (* the identity and the origin *)
    created KCfnOriginAccessIdentity (since w w') = [oai] ∧
    created KOriginAccessIdentity (since w w') = [imported] ∧
    tree w' !! imported
    = Some (mkConstruct KOriginAccessIdentity
              (VObj {[ "originAccessIdentityName" := VTok (TRef oai) ]})) ∧
    s3Origins (s3Defaults scope sourceBucket cloudFrontDistributionProps
                 httpSecurityHeaders)
    = [(VRef sourceBucket, VRef imported)] ∧
    (userValue cloudFrontDistributionProps "originConfigs" = None →
     ∃ c cfg, tree w' !! d = Some c ∧ props c = VObj cfg ∧
       s3Origins cfg = [(VRef sourceBucket, VRef imported)]) ∧
    (* the logging bucket *)
    created KBucket (since w w') = [loggingBucket] ∧
    loggingBucket ≠ sourceBucket ∧
    (* the grant and its annotation *)
    (∃ pol earlier,
       tree w' !! policy = Some pol ∧
       document pol = earlier ++ [statement] ∧
       suppressions (cfnMetadata (defaultChild pol)) = [(VStr "F16", VStr f16Reason)] ∧
       f16Reason ≠ "") ∧
    (* the order *)
    (∃ before after,
       since w w' = before ++ Created d KDistribution :: after ∧
       List.filter isStatementAdded before = [] ∧
       List.filter isStatementAdded after = [StatementAdded policy statement]).
Proof.
  intros Hready Hnone. cbv zeta.
  eexists _, _. split; [exact (provision_run (ForS3 sourceBucket) _ _ _ _ Hready)|].
  change (s3World scope sourceBucket cloudFrontDistributionProps httpSecurityHeaders w)
    with (provisioned (ForS3 sourceBucket) scope cloudFrontDistributionProps
            httpSecurityHeaders w).
  rewrite created_bucket_run, Hnone, provisioned_since.
  split; [|split; [|split; [|split; [|split; [|split; [|split; [|split]]]]]]].
  - unfold preparationEvents, edgeEvents, loggingEvents, completionEvents, grantEvents.
    rewrite Hnone.
    destruct (truthy (headerInjection _ httpSecurityHeaders));
      destruct (tree w !! (sourceBucket ++ ["Policy"])); reflexivity.
  - unfold preparationEvents, edgeEvents, loggingEvents, completionEvents, grantEvents.
    rewrite Hnone.
    destruct (truthy (headerInjection _ httpSecurityHeaders));
      destruct (tree w !! (sourceBucket ++ ["Policy"])); reflexivity.
  - apply s3World_identity.
  - apply s3Props_origins.
  - intros Hown. eexists _, _.
    split; [apply (provisioned_distribution (ForS3 sourceBucket))|].
    split; [reflexivity|].
    erewrite s3Origins_key by (by apply cfprops_originConfigs).
    apply s3Props_origins.
  - reflexivity.
  - apply andb_prop in Hready as [Hfree Hb].
    apply isBucket_lookup in Hb as (c & Hc & _).
    apply idsNeeded_free in Hfree as (_ & _ & Hl & _).
    specialize (Hl Hnone). intros Heq. rewrite Heq in Hl. congruence.
  - eexists _, _. split; [apply s3World_policy|].
    split; [reflexivity|]. split; [reflexivity|]. discriminate.
  - eexists _, _. split; [reflexivity|].
    unfold preparationEvents, edgeEvents, loggingEvents, completionEvents, grantEvents.
    rewrite Hnone.
    destruct (truthy (headerInjection _ httpSecurityHeaders));
      destruct (tree w !! (sourceBucket ++ ["Policy"])); split; reflexivity.
Qed.

(** C6. Whatever branches are taken, the distribution either entry point
    returns carries, on its own resource declaration, exactly one
    suppression: rule W70, with its justification. *)
Theorem distribution_carries_one_W70 (v : variant) (scope : path)
    (cloudFrontDistributionProps : option (gmap string value))
    (httpSecurityHeaders : value) (w : world) :
  ready v scope cloudFrontDistributionProps httpSecurityHeaders w = true →
  ∃ d w' c,
    provision v scope cloudFrontDistributionProps httpSecurityHeaders w = Ok (d, w') ∧
    tree w' !! d = Some c ∧
    kind_of c = KDistribution ∧
    suppressions (cfnMetadata (defaultChild c)) = [(VStr "W70", VStr w70Reason)] ∧
    w70Reason ≠ "".
Proof.
  intros Hready. eexists _, _, _. split; [by apply provision_run|].
  split; [apply provisioned_distribution|].
  repeat split. discriminate.
Qed.

(** C7. With header injection enabled, which it is by default, either entry
    point creates exactly one edge function and exactly one version of it,
    and the function's resource declaration has no [Environment] block,
    whatever the framework rendered there. *)
Theorem header_injection_creates_one_function_and_version (v : variant)
    (scope : path) (cloudFrontDistributionProps : option (gmap string value))
    (httpSecurityHeaders : value) (w : world) :
  ready v scope cloudFrontDistributionProps httpSecurityHeaders w = true →
  truthy (headerInjection v httpSecurityHeaders) = true →
  truthy (headerInjection v VUndefined) = true ∧
  ∃ d w',
    provision v scope cloudFrontDistributionProps httpSecurityHeaders w = Ok (d, w') ∧
    created KFunction (since w w') = [scope ++ ["SetHttpSecurityHeaders"]] ∧
    created KVersion (since w w') = [scope ++ ["SetHttpSecurityHeadersVersion"]] ∧
    tree w' !! (scope ++ ["SetHttpSecurityHeadersVersion"])
    = Some (mkConstruct KVersion
              (VObj {[ "lambda" := VRef (scope ++ ["SetHttpSecurityHeaders"]) ]})) ∧
    ∃ fn, tree w' !! (scope ++ ["SetHttpSecurityHeaders"]) = Some fn ∧
      kind_of fn = KFunction ∧
      ∀ rendered : gmap string value,
        propertiesOf (toCloudFormation rendered (defaultChild fn)) !! "Environment"
        = None.
Proof.
  intros Hready Hon. split; [by destruct v|].
  eexists _, _. split; [by apply provision_run|].
  rewrite created_function_run, created_version_run, Hon.
  split; [reflexivity|]. split; [reflexivity|].
  split; [by apply provisioned_version|].
  exists edgeFunctionConstruct. split; [by apply provisioned_function|].
  split; [reflexivity|]. apply edgeFunction_no_environment.
Qed.

(** C8, as amended. For the storage variant, [httpSecurityHeaders === false]
    creates no edge function and no version, the resolved default
    configuration has no edge-function version on its default behavior, and
    neither has the distribution unless the caller's object has
    [originConfigs] of its own; every other value, [undefined] and the
    other falsy values among them, leaves header injection enabled. *)
Theorem s3_headers_disabled_only_by_false (scope sourceBucket : path)
    (cloudFrontDistributionProps : option (gmap string value))
    (httpSecurityHeaders : value) (w : world) :
  ready (ForS3 sourceBucket) scope cloudFrontDistributionProps httpSecurityHeaders w
  = true →
  ∃ d w',
    CloudFrontDistributionForS3 scope sourceBucket cloudFrontDistributionProps
      httpSecurityHeaders w = Ok (d, w') ∧
    (httpSecurityHeaders = VBool false →
       created KFunction (since w w') = [] ∧
       created KVersion (since w w') = [] ∧
       attachedEdgeVersions
         (s3Defaults scope sourceBucket cloudFrontDistributionProps
            httpSecurityHeaders) = [] ∧
       (userValue cloudFrontDistributionProps "originConfigs" = None →
        ∃ c cfg, tree w' !! d = Some c ∧ props c = VObj cfg ∧
          attachedEdgeVersions cfg = [])) ∧
    (httpSecurityHeaders ≠ VBool false →
       s3HttpSecurityHeaders httpSecurityHeaders = VBool true ∧
       created KFunction (since w w') = [scope ++ ["SetHttpSecurityHeaders"]] ∧
       created KVersion (since w w') = [scope ++ ["SetHttpSecurityHeadersVersion"]] ∧
       attachedEdgeVersions
         (s3Defaults scope sourceBucket cloudFrontDistributionProps
            httpSecurityHeaders)
       = [VRef (scope ++ ["SetHttpSecurityHeadersVersion"])]).
Proof.
  intros Hready.
  eexists _, _. split; [exact (provision_run (ForS3 sourceBucket) _ _ _ _ Hready)|].
  change (s3World scope sourceBucket cloudFrontDistributionProps httpSecurityHeaders w)
    with (provisioned (ForS3 sourceBucket) scope cloudFrontDistributionProps
            httpSecurityHeaders w).
  change (s3Defaults scope sourceBucket cloudFrontDistributionProps httpSecurityHeaders)
    with (resolvedDefaults (ForS3 sourceBucket) scope cloudFrontDistributionProps
            httpSecurityHeaders).
  rewrite created_function_run, created_version_run, resolvedDefaults_attached.
  cbn [headerInjection]. split.
  - intros Hoff. rewrite (s3HttpSecurityHeaders_false _ Hoff). cbn [truthy].
    repeat split. intros Hown. eexists _, _.
    split; [apply (provisioned_distribution (ForS3 sourceBucket))|].
    split; [reflexivity|].
    erewrite attachedEdgeVersions_key by (by apply cfprops_originConfigs).
    rewrite resolvedDefaults_attached. cbn [headerInjection].
    by rewrite (s3HttpSecurityHeaders_false _ Hoff).
  - intros Hon. rewrite (s3HttpSecurityHeaders_true _ Hon). cbn [truthy].
    repeat split.
Qed.

(** C9. When the caller's object names a logging bucket, neither entry
    point creates a logging bucket, and the access-log destination of the
    distribution is the caller's bucket. *)
Theorem caller_logging_bucket_is_used (v : variant) (scope : path)
    (userProps loggingConfig : gmap string value) (bucket : value)
    (httpSecurityHeaders : value) (w : world) :
  ready v scope (Some userProps) httpSecurityHeaders w = true →
  userProps !! "loggingConfig" = Some (VObj loggingConfig) →
  loggingConfig !! "bucket" = Some bucket →
  ∃ d w' c cfg,
    provision v scope (Some userProps) httpSecurityHeaders w = Ok (d, w') ∧
    created KBucket (since w w') = [] ∧
    tree w' !! d = Some c ∧
    kind_of c = KDistribution ∧
    props c = VObj cfg ∧
    logDestination cfg = bucket.
Proof.
  intros Hready Hcfg Hbucket.
  eexists _, _, _, _. split; [by apply provision_run|].
  rewrite created_bucket_run.
  assert (loggingConfigOf (Some userProps) = VObj loggingConfig) as Hlc.
  { cbn [loggingConfigOf getProp]. by rewrite Hcfg. }
  rewrite Hlc. split; [reflexivity|].
  split; [apply provisioned_distribution|].
  split; [reflexivity|]. split; [reflexivity|].
  unfold logDestination. cbn [getProp].
  rewrite cfprops_lookup. cbn [userValue]. rewrite Hcfg. cbn [default from_option id getProp].
  by rewrite Hbucket.
Qed.

(** C10. [updateSecurityPolicy] returns the distribution it was given; the
    metadata of the underlying resource becomes the single W70 suppression,
    whatever it was; the kind, the configuration, the document and the
    overrides of the distribution stay as they were, and so does every
    other construct of the tree. *)
Theorem updateSecurityPolicy_frame (cfDistribution : path) (c : Construct) (w : world) :
  tree w !! cfDistribution = Some c →
  ∃ w' c',
    updateSecurityPolicy cfDistribution w = Ok (cfDistribution, w') ∧
    tree w' !! cfDistribution = Some c' ∧
    cfnMetadata (defaultChild c') = w70Metadata ∧
    suppressions (cfnMetadata (defaultChild c')) = [(VStr "W70", VStr w70Reason)] ∧
    kind_of c' = kind_of c ∧
    props c' = props c ∧
    document c' = document c ∧
    rawOverrides (defaultChild c') = rawOverrides (defaultChild c) ∧
    (∀ p, p ≠ cfDistribution → tree w' !! p = tree w !! p) ∧
    created KDistribution (since w w') = [] ∧
    since w w' = [MetadataSet cfDistribution].
Proof.
  intros Hc. eexists _, _. split; [by apply updateSecurityPolicy_run|].
  cbn [tree]. split; [apply lookup_insert_eq|].
  repeat split.
  - intros p Hp. by rewrite lookup_insert_ne.
  - by erewrite since_app by reflexivity.
  - by apply since_app.
Qed.

(** * Which call returns and which throws *)

Lemma firstTaken_app (w : world) (scope : path) (ids ids' : list string) :
  firstTaken w scope (ids ++ ids')
  = match firstTaken w scope ids with
    | Some id => Some id
    | None => firstTaken w scope ids'
    end.
Proof.
  unfold firstTaken. induction ids as [|id ids IH]; [reflexivity|].
  cbn [app find]. by destruct (negb (isFree w scope id)).
Qed.

Lemma firstTaken_None (w : world) (scope : path) (ids : list string) :
  firstTaken w scope ids = None ↔ allFree w scope ids = true.
Proof.
  unfold firstTaken, allFree. induction ids as [|id ids IH]; [done|].
  cbn [find forallb]. destruct (isFree w scope id); cbn [negb andb]; [exact IH|done].
Qed.

Lemma firstTaken_frame (w w' : world) (scope : path) (ids : list string) :
  (∀ id, id ∈ ids → tree w' !! (scope ++ [id]) = tree w !! (scope ++ [id])) →
  firstTaken w' scope ids = firstTaken w scope ids.
Proof.
  unfold firstTaken. induction ids as [|id ids IH]; intros Hframe; [reflexivity|].
  cbn [find]. rewrite (isFree_frame w w') by (apply Hframe; left).
  rewrite IH; [reflexivity|]. intros id' Hid'. apply Hframe. by right.
Qed.

Lemma edgePhase_outcome (scope : path) (flag : value) (w : world) :
  (if truthy flag then
     fn <- defaultLambdaEdgeFunction scope ;;
     version <- newConstruct scope "SetHttpSecurityHeadersVersion" KVersion
                  (VObj {[ "lambda" := VRef fn ]}) ;;
     ret (VRef version)
   else ret VUndefined) w
  = match firstTaken w scope (edgeIds flag) with
    | Some id => Err (DuplicateId (scope ++ [id]))
    | None => Ok (edgeLambdaVersionOf scope flag, afterEdgePhase scope flag w)
    end.
Proof.
  destruct (firstTaken w scope (edgeIds flag)) as [id|] eqn:Hfirst.
  - unfold edgeIds, firstTaken in Hfirst.
    destruct (truthy flag); [|discriminate]. cbn [find] in Hfirst.
    destruct (isFree w scope "SetHttpSecurityHeaders") eqn:Hf; cbn [negb] in Hfirst.
    + destruct (isFree w scope "SetHttpSecurityHeadersVersion") eqn:Hv;
        cbn [negb] in Hfirst; [discriminate|].
      injection Hfirst as <-. apply isFree_lookup in Hf. apply isFree_false in Hv.
      erewrite bind_ok by (apply defaultLambdaEdgeFunction_run; exact Hf).
      apply bind_err, newConstruct_taken. cbn [afterEdgeFunction tree].
      by rewrite lookup_insert_ne by (by apply child_ne).
    + injection Hfirst as <-. apply isFree_false in Hf.
      apply bind_err. unfold defaultLambdaEdgeFunction, deployLambdaFunction.
      by apply bind_err, newConstruct_taken.
  - apply firstTaken_None in Hfirst.
    destruct (allFree_guards scope flag None w) as [Hguards _].
    destruct (Hguards Hfirst) as [Hf Hv]. by apply edgePhase_run.
Qed.

Lemma loggingPhase_outcome (scope : path)
    (cloudFrontDistributionProps : option (gmap string value))
    (resolve : value → gmap string value) (w : world) :
  (if truthy (loggingConfigOf cloudFrontDistributionProps) then
     ret (resolve (getProp (loggingConfigOf cloudFrontDistributionProps) "bucket"))
   else
     loggingBucket <- createCloudfrontLoggingBucket scope ;;
     ret (resolve (VRef loggingBucket))) w
  = match firstTaken w scope (loggingIds cloudFrontDistributionProps) with
    | Some id => Err (DuplicateId (scope ++ [id]))
    | None => Ok (resolve (loggingBucketOf scope cloudFrontDistributionProps),
                  afterLoggingPhase scope cloudFrontDistributionProps w)
    end.
Proof.
  destruct (firstTaken w scope (loggingIds cloudFrontDistributionProps))
    as [id|] eqn:Hfirst.
  - unfold loggingIds, firstTaken in Hfirst.
    destruct (truthy (loggingConfigOf cloudFrontDistributionProps)); [discriminate|].
    cbn [find] in Hfirst.
    destruct (isFree w scope "CloudfrontLoggingBucket") eqn:Hl; cbn [negb] in Hfirst;
      [discriminate|].
    injection Hfirst as <-. apply isFree_false in Hl.
    apply bind_err. unfold createCloudfrontLoggingBucket.
    by apply bind_err, newConstruct_taken.
  - apply firstTaken_None in Hfirst.
    destruct (allFree_guards scope VUndefined cloudFrontDistributionProps w)
      as [_ Hguard].
    apply loggingPhase_run. by apply Hguard.
Qed.

(** The part of the two entry points after the identity phase, when an id is
    taken. *)
Lemma tail_outcome (scope : path)
    (cloudFrontDistributionProps : option (gmap string value))
    (flag : value) (resolve : value → value → gmap string value)
    {A} (rest : path → M A) (w : world) (id : string) :
  firstTaken w scope
    (edgeIds flag ++ loggingIds cloudFrontDistributionProps ++ ["CloudFrontDistribution"])
  = Some id →
  (edgeLambdaVersion <-
     (if truthy flag then
        fn <- defaultLambdaEdgeFunction scope ;;
        version <- newConstruct scope "SetHttpSecurityHeadersVersion" KVersion
                     (VObj {[ "lambda" := VRef fn ]}) ;;
        ret (VRef version)
      else ret VUndefined) ;;
   defaultprops <-
     (if truthy (loggingConfigOf cloudFrontDistributionProps) then
        ret (resolve
               (getProp (loggingConfigOf cloudFrontDistributionProps) "bucket")
               edgeLambdaVersion)
      else
        loggingBucket <- createCloudfrontLoggingBucket scope ;;
        ret (resolve (VRef loggingBucket) edgeLambdaVersion)) ;;
   cfDistribution <- newConstruct scope "CloudFrontDistribution" KDistribution
                       (VObj (cfprops defaultprops cloudFrontDistributionProps)) ;;
   rest cfDistribution) w
  = Err (DuplicateId (scope ++ [id])).
Proof.
  rewrite !firstTaken_app.
  unfold bind at 1. rewrite edgePhase_outcome.
  destruct (firstTaken w scope (edgeIds flag)) as [e|] eqn:He.
  { by intros [= ->]. }
  unfold bind at 1.
  rewrite (loggingPhase_outcome scope cloudFrontDistributionProps
             (fun b => resolve b (edgeLambdaVersionOf scope flag))).
  rewrite (firstTaken_frame w (afterEdgePhase scope flag w)).
  2:{ intros l Hl. apply afterEdgePhase_other; apply child_ne; intros ->;
        unfold loggingIds in Hl;
        destruct (truthy (loggingConfigOf cloudFrontDistributionProps));
        not_in_ids Hl. }
  destruct (firstTaken w scope (loggingIds cloudFrontDistributionProps))
    as [l|] eqn:Hl.
  { by intros [= ->]. }
  unfold firstTaken. cbn [find].
  destruct (isFree w scope "CloudFrontDistribution") eqn:Hd; cbn [negb]; [discriminate|].
  intros [= <-]. apply isFree_false in Hd.
  apply bind_err, newConstruct_taken.
  by rewrite afterLoggingPhase_other, afterEdgePhase_other by (by apply child_ne).
Qed.

Lemma provision_throws (v : variant) (scope : path)
    (cloudFrontDistributionProps : option (gmap string value))
    (httpSecurityHeaders : value) (w : world) (id : string) :
  firstTaken w scope (idsNeeded v cloudFrontDistributionProps httpSecurityHeaders)
  = Some id →
  provision v scope cloudFrontDistributionProps httpSecurityHeaders w
  = Err (DuplicateId (scope ++ [id])).
Proof.
  unfold idsNeeded.
  destruct v as [apiEndPoint | sourceBucket]; cbn [provision identityIds headerInjection].
  - cbn [app]. intros Hfirst.
    apply (tail_outcome scope cloudFrontDistributionProps
             (apiHttpSecurityHeaders httpSecurityHeaders)
             (fun b e => DefaultCloudFrontWebDistributionForApiGatewayProps apiEndPoint b
                           (apiHttpSecurityHeaders httpSecurityHeaders) e)
             (fun d => updateSecurityPolicy d ;; ret d) w id Hfirst).
  - rewrite firstTaken_app. unfold firstTaken at 1. cbn [find].
    destruct (isFree w scope "CloudFrontOriginAccessIdentity") eqn:Ho; cbn [negb].
    2:{ intros [= <-]. apply isFree_false in Ho.
        unfold CloudFrontDistributionForS3. by apply bind_err, newConstruct_taken. }
    apply isFree_lookup in Ho.
    destruct (isFree w scope "OAIImported") eqn:Hi; cbn [negb].
    2:{ intros [= <-]. apply isFree_false in Hi.
        unfold CloudFrontDistributionForS3.
        erewrite bind_ok by (apply newConstruct_free; exact Ho).
        apply bind_err, newConstruct_taken. cbn [tree].
        by rewrite lookup_insert_ne by (by apply child_ne). }
    apply isFree_lookup in Hi. intros Hfirst.
    unfold CloudFrontDistributionForS3.
    erewrite bind_ok by (apply newConstruct_free; exact Ho).
    erewrite bind_ok.
    2:{ apply newConstruct_free. cbn [tree].
        rewrite lookup_insert_ne by (by apply child_ne). exact Hi. }
    cbv zeta.
    match goal with
    | |- bind _ _ ?w0 = _ =>
        replace w0 with (afterIdentity scope w)
          by (unfold afterIdentity; cbn [tree journal]; rewrite <- app_assoc;
              reflexivity)
    end.
    apply (tail_outcome scope cloudFrontDistributionProps
             (s3HttpSecurityHeaders httpSecurityHeaders)
             (fun b e => DefaultCloudFrontWebDistributionForS3Props sourceBucket b
                           (VRef (scope ++ ["OAIImported"]))
                           (s3HttpSecurityHeaders httpSecurityHeaders) e)).
    erewrite firstTaken_frame; [exact Hfirst|]. intros id' Hid'.
    apply afterIdentity_other; apply child_ne; intros ->;
      unfold edgeIds, loggingIds in Hid';
      destruct (truthy (s3HttpSecurityHeaders httpSecurityHeaders)),
        (truthy (loggingConfigOf cloudFrontDistributionProps));
      not_in_ids Hid'.
Qed.

(** X1. A call throws when one of the ids it registers is taken in the
    scope: the result is the duplicate-id error, for an id of the call that
    is taken. This holds whatever the props, the flag and the variant are,
    and whether or not the source bucket is there. *)
Theorem taken_id_throws (v : variant) (scope : path)
    (cloudFrontDistributionProps : option (gmap string value))
    (httpSecurityHeaders : value) (w : world) :
  allFree w scope (idsNeeded v cloudFrontDistributionProps httpSecurityHeaders)
  = false →
  ∃ id,
    id ∈ idsNeeded v cloudFrontDistributionProps httpSecurityHeaders ∧
    is_Some (tree w !! (scope ++ [id])) ∧
    provision v scope cloudFrontDistributionProps httpSecurityHeaders w
    = Err (DuplicateId (scope ++ [id])).
Proof.
  intros Hfree.
  destruct (firstTaken w scope
              (idsNeeded v cloudFrontDistributionProps httpSecurityHeaders))
    as [id|] eqn:Hfirst.
  - exists id. pose proof (find_some _ _ Hfirst) as [Hin Htaken].
    split; [by apply list_elem_of_In|].
    split; [|by apply provision_throws].
    apply isFree_false. by destruct (isFree w scope id).
  - apply firstTaken_None in Hfirst. congruence.
Qed.

(** * What a run adds to the tree and what it leaves alone *)

Lemma afterEdgePhase_elsewhere (scope : path) (flag : value) (w : world) (p : path) :
  p ∉ map (fun id => scope ++ [id]) (edgeIds flag) →
  tree (afterEdgePhase scope flag w) !! p = tree w !! p.
Proof.
  unfold afterEdgePhase, edgeIds. destruct (truthy flag); [|reflexivity].
  cbn [map]. intros Hp. apply not_elem_of_cons in Hp as [Hf Hp].
  apply not_elem_of_cons in Hp as [Hv _].
  cbn [afterEdgeVersion afterEdgeFunction tree]. by rewrite !lookup_insert_ne.
Qed.

Lemma afterLoggingPhase_elsewhere (scope : path)
    (cloudFrontDistributionProps : option (gmap string value)) (w : world) (p : path) :
  p ∉ map (fun id => scope ++ [id]) (loggingIds cloudFrontDistributionProps) →
  tree (afterLoggingPhase scope cloudFrontDistributionProps w) !! p = tree w !! p.
Proof.
  unfold afterLoggingPhase, loggingIds.
  destruct (truthy (loggingConfigOf cloudFrontDistributionProps)); [reflexivity|].
  cbn [map]. intros Hp. apply not_elem_of_cons in Hp as [Hl _].
  cbn [afterLoggingBucket tree]. by rewrite lookup_insert_ne.
Qed.

Lemma provisioned_elsewhere (v : variant) (scope : path)
    (cloudFrontDistributionProps : option (gmap string value))
    (httpSecurityHeaders : value) (w : world) (p : path) :
  p ∉ map (fun id => scope ++ [id])
        (idsNeeded v cloudFrontDistributionProps httpSecurityHeaders) →
  p ∉ policyOf v →
  tree (provisioned v scope cloudFrontDistributionProps httpSecurityHeaders w) !! p
  = tree w !! p.
Proof.
  unfold idsNeeded. rewrite !map_app. intros Hp Hpol.
  apply not_elem_of_app in Hp as [Hid Hp].
  apply not_elem_of_app in Hp as [He Hp].
  apply not_elem_of_app in Hp as [Hl Hd].
  cbn [map] in Hd. apply not_elem_of_cons in Hd as [Hd _].
  destruct v as [apiEndPoint | sourceBucket];
    cbn [provisioned headerInjection identityIds policyOf] in *;
    unfold apiGatewayWorld, s3World.
  - rewrite afterDistribution_other by done.
    rewrite afterLoggingPhase_elsewhere by done.
    by rewrite afterEdgePhase_elsewhere.
  - cbn [map] in Hid. apply not_elem_of_cons in Hid as [Ho Hid].
    apply not_elem_of_cons in Hid as [Hi _].
    apply not_elem_of_cons in Hpol as [Hpol _].
    rewrite afterGrant_other by done.
    rewrite afterDistribution_other by done.
    rewrite afterLoggingPhase_elsewhere by done.
    rewrite afterEdgePhase_elsewhere by done.
    by rewrite afterIdentity_other.
Qed.

(** A construct of the tree is not among the ids a ready call registers. *)
Lemma existing_not_registered (v : variant) (scope : path)
    (cloudFrontDistributionProps : option (gmap string value))
    (httpSecurityHeaders : value) (w : world) (p : path) :
  ready v scope cloudFrontDistributionProps httpSecurityHeaders w = true →
  is_Some (tree w !! p) →
  p ∉ map (fun id => scope ++ [id])
        (idsNeeded v cloudFrontDistributionProps httpSecurityHeaders).
Proof.
  intros [Hfree _]%andb_prop [c Hc] Hin.
  apply list_elem_of_fmap in Hin as (id & -> & Hid).
  rewrite (allFree_lookup _ _ _ _ Hfree Hid) in Hc. discriminate.
Qed.

Lemma s3World_oai (scope sourceBucket : path)
    (cloudFrontDistributionProps : option (gmap string value))
    (httpSecurityHeaders : value) (w : world) :
  is_Some
    (tree (s3World scope sourceBucket cloudFrontDistributionProps
             httpSecurityHeaders w)
       !! (scope ++ ["CloudFrontOriginAccessIdentity"])).
Proof.
  unfold s3World.
  rewrite afterGrant_other, afterDistribution_other, afterLoggingPhase_other,
    afterEdgePhase_other by (by apply child_ne).
  cbn [afterIdentity tree].
  rewrite lookup_insert_ne by (by apply child_ne). rewrite lookup_insert_eq. eauto.
Qed.

Lemma registered_is_there (v : variant) (scope : path)
    (cloudFrontDistributionProps : option (gmap string value))
    (httpSecurityHeaders : value) (w : world) (id : string) :
  id ∈ idsNeeded v cloudFrontDistributionProps httpSecurityHeaders →
  is_Some
    (tree (provisioned v scope cloudFrontDistributionProps httpSecurityHeaders w)
       !! (scope ++ [id])).
Proof.
  unfold idsNeeded, edgeIds, loggingIds. intros Hid.
  apply elem_of_app in Hid as [Hid|Hid].
  { destruct v as [apiEndPoint | sourceBucket]; cbn [identityIds] in Hid.
    - by apply elem_of_nil in Hid.
    - apply elem_of_cons in Hid as [->|Hid]; [apply s3World_oai|].
      apply elem_of_cons in Hid as [->|Hid]; [|by apply elem_of_nil in Hid].
      cbn [provisioned]. rewrite s3World_identity. eauto. }
  apply elem_of_app in Hid as [Hid|Hid].
  { destruct (truthy (headerInjection v httpSecurityHeaders)) eqn:Hon;
      [|by apply elem_of_nil in Hid].
    apply elem_of_cons in Hid as [->|Hid];
      [rewrite provisioned_function by done; eauto|].
    apply elem_of_cons in Hid as [->|Hid]; [|by apply elem_of_nil in Hid].
    rewrite provisioned_version by done. eauto. }
  apply elem_of_app in Hid as [Hid|Hid].
  { destruct (truthy (loggingConfigOf cloudFrontDistributionProps)) eqn:Hlc;
      [by apply elem_of_nil in Hid|].
    apply elem_of_cons in Hid as [->|Hid]; [|by apply elem_of_nil in Hid].
    rewrite provisioned_loggingBucket by done. eauto. }
  apply elem_of_cons in Hid as [->|Hid]; [|by apply elem_of_nil in Hid].
  rewrite provisioned_distribution. eauto.
Qed.

Lemma created_distribution_run (v : variant) (scope : path)
    (cloudFrontDistributionProps : option (gmap string value))
    (httpSecurityHeaders : value) (w : world) :
  created KDistribution
    (since w (provisioned v scope cloudFrontDistributionProps httpSecurityHeaders w))
  = [scope ++ ["CloudFrontDistribution"]].
Proof.
  rewrite provisioned_since.
  unfold preparationEvents, edgeEvents, loggingEvents, completionEvents, grantEvents.
  destruct v as [apiEndPoint | sourceBucket];
    destruct (truthy (headerInjection _ httpSecurityHeaders));
    destruct (truthy (loggingConfigOf cloudFrontDistributionProps));
    try destruct (tree w !! (sourceBucket ++ ["Policy"]));
    reflexivity.
Qed.

Lemma distribution_always_needed (v : variant)
    (cloudFrontDistributionProps : option (gmap string value))
    (httpSecurityHeaders : value) :
  "CloudFrontDistribution"
  ∈ idsNeeded v cloudFrontDistributionProps httpSecurityHeaders.
Proof. unfold idsNeeded. in_ids. Qed.

Lemma policy_never_needed (v : variant)
    (cloudFrontDistributionProps : option (gmap string value))
    (httpSecurityHeaders : value) :
  "Policy" ∉ idsNeeded v cloudFrontDistributionProps httpSecurityHeaders.
Proof.
  unfold idsNeeded, edgeIds, loggingIds. intros Hin.
  destruct v; cbn [identityIds] in Hin;
    destruct (truthy (headerInjection _ httpSecurityHeaders)),
      (truthy (loggingConfigOf cloudFrontDistributionProps));
    not_in_ids Hin.
Qed.

(** X2. The ids are fixed: after a call has returned, every further call of
    either entry point in the same scope throws a duplicate-id error. *)
Theorem second_call_in_scope_throws (v : variant) (scope : path)
    (cloudFrontDistributionProps : option (gmap string value))
    (httpSecurityHeaders : value) (w : world) :
  ready v scope cloudFrontDistributionProps httpSecurityHeaders w = true →
  ∃ d w',
    provision v scope cloudFrontDistributionProps httpSecurityHeaders w = Ok (d, w') ∧
    ∀ (v2 : variant) (props2 : option (gmap string value)) (headers2 : value),
      ∃ id, id ∈ idsNeeded v2 props2 headers2 ∧
        provision v2 scope props2 headers2 w' = Err (DuplicateId (scope ++ [id])).
Proof.
  intros Hready. eexists _, _. split; [by apply provision_run|].
  intros v2 props2 headers2.
  destruct (firstTaken
              (provisioned v scope cloudFrontDistributionProps httpSecurityHeaders w)
              scope (idsNeeded v2 props2 headers2)) as [id|] eqn:Hfirst.
  - exists id. split; [|by apply provision_throws].
    apply find_some in Hfirst as [Hin _]. by apply list_elem_of_In.
  - apply firstTaken_None in Hfirst.
    pose proof (allFree_lookup _ _ _ _ Hfirst
                  (distribution_always_needed v2 props2 headers2)) as Hd.
    rewrite provisioned_distribution in Hd. discriminate.
Qed.

(** X5. What a ready call returns is the child [CloudFrontDistribution] of
    the scope: a construct that was not there, the one distribution the
    call creates, configured with the merged properties, and with no
    override and no policy document of its own. *)
Theorem returned_distribution_is_new (v : variant) (scope : path)
    (cloudFrontDistributionProps : option (gmap string value))
    (httpSecurityHeaders : value) (w : world) :
  ready v scope cloudFrontDistributionProps httpSecurityHeaders w = true →
  ∃ d w' c,
    provision v scope cloudFrontDistributionProps httpSecurityHeaders w = Ok (d, w') ∧
    d = scope ++ ["CloudFrontDistribution"] ∧
    tree w !! d = None ∧
    tree w' !! d = Some c ∧
    kind_of c = KDistribution ∧
    created KDistribution (since w w') = [d] ∧
    props c = VObj (cfprops (resolvedDefaults v scope cloudFrontDistributionProps
                               httpSecurityHeaders)
                            cloudFrontDistributionProps) ∧
    rawOverrides (defaultChild c) = [] ∧
    document c = [].
Proof.
  intros Hready. eexists _, _, _. split; [by apply provision_run|].
  split; [reflexivity|]. split.
  { apply andb_prop in Hready as [Hfree _].
    apply (allFree_lookup _ _ _ _ Hfree), distribution_always_needed. }
  split; [apply provisioned_distribution|].
  split; [reflexivity|]. split; [apply created_distribution_run|].
  repeat split.
Qed.

(** X6. The grant of the storage variant extends the policy of the source
    bucket and never replaces it: the statements the policy had are kept,
    in their order, at its head; the statement of the call is the last one;
    the overrides of the policy resource are kept; its metadata is replaced
    by the F16 suppression. Statements the framework's constructor of the
    distribution puts on the policy itself would stand in between. *)
Theorem grant_extends_policy (scope sourceBucket : path)
    (cloudFrontDistributionProps : option (gmap string value))
    (httpSecurityHeaders : value) (w : world) :
  ready (ForS3 sourceBucket) scope cloudFrontDistributionProps httpSecurityHeaders w
  = true →
  let policy := sourceBucket ++ ["Policy"] in
  let statement :=
    {| actions := ["s3:GetObject"];
       resources := [TArnForObjects sourceBucket "*"];
       principals :=
         [CanonicalUserPrincipal
            (TAttr (scope ++ ["CloudFrontOriginAccessIdentity"]) "S3CanonicalUserId")] |} in
  ∃ d w' pol between,
    CloudFrontDistributionForS3 scope sourceBucket cloudFrontDistributionProps
      httpSecurityHeaders w = Ok (d, w') ∧
    tree w' !! policy = Some pol ∧
    document pol
    = from_option document [] (tree w !! policy) ++ between ++ [statement] ∧
    rawOverrides (defaultChild pol)
    = from_option (fun c => rawOverrides (defaultChild c)) [] (tree w !! policy) ∧
    cfnMetadata (defaultChild pol) = f16Metadata.
Proof.
  intros Hready. cbv zeta.
  eexists _, _, _, [].
  split; [exact (provision_run (ForS3 sourceBucket) _ _ _ _ Hready)|].
  change (s3World scope sourceBucket cloudFrontDistributionProps httpSecurityHeaders w)
    with (provisioned (ForS3 sourceBucket) scope cloudFrontDistributionProps
            httpSecurityHeaders w).
  split; [apply s3World_policy|].
  destruct (tree w !! (sourceBucket ++ ["Policy"])) as [pol0|]; repeat split.
Qed.

(** * Calls in different scopes *)

Lemma ready_elsewhere (v1 v2 : variant) (scope1 scope2 : path)
    (props1 props2 : option (gmap string value)) (headers1 headers2 : value)
    (w : world) :
  ready v1 scope1 props1 headers1 w = true →
  ready v2 scope2 props2 headers2 w = true →
  scope1 ≠ scope2 →
  ready v2 scope2 props2 headers2 (provisioned v1 scope1 props1 headers1 w) = true.
Proof.
  intros Hready1 Hready2 Hscope.
  pose proof Hready2 as [Hfree2 Hsource2]%andb_prop.
  unfold ready. apply andb_true_intro. split.
  - erewrite allFree_frame; [exact Hfree2|]. intros id Hid.
    apply provisioned_elsewhere.
    + intros (id' & Heq & _)%list_elem_of_fmap.
      apply app_inj_tail in Heq as [Heq _]. by destruct Hscope.
    + destruct v1 as [apiEndPoint | sourceBucket]; cbn [policyOf];
        [apply not_elem_of_nil|].
      intros Heq%list_elem_of_singleton. apply app_inj_tail in Heq as [_ ->].
      by apply policy_never_needed in Hid.
  - destruct v2 as [apiEndPoint2 | bucket2]; [reflexivity|].
    apply isBucket_lookup in Hsource2 as (c & Hc & Hk). unfold isBucket.
    destruct (decide (bucket2 ∈ policyOf v1)) as [Hpol|Hpol].
    + destruct v1 as [apiEndPoint | sourceBucket]; cbn [policyOf] in Hpol;
        [by apply elem_of_nil in Hpol|].
      apply list_elem_of_singleton in Hpol as ->.
      cbn [provisioned]. rewrite s3World_policy, Hc.
      by apply bool_decide_eq_true.
    + rewrite provisioned_elsewhere, Hc; [by apply bool_decide_eq_true | | exact Hpol].
      eapply existing_not_registered; eauto.
Qed.

(** X8. Calls in different scopes do not disturb each other: if each of two
    calls is ready in a world, the second is still ready after the first and
    returns another distribution, and every construct the first call
    registered in its own scope is afterwards as the first call left it.
    (The policy of the source bucket is not in the scope of a call; a second
    call on the same bucket extends it.) *)
Theorem calls_in_other_scopes_compose (v1 v2 : variant) (scope1 scope2 : path)
    (props1 props2 : option (gmap string value)) (headers1 headers2 : value)
    (w : world) :
  ready v1 scope1 props1 headers1 w = true →
  ready v2 scope2 props2 headers2 w = true →
  scope1 ≠ scope2 →
  ∃ d1 w1 d2 w2,
    provision v1 scope1 props1 headers1 w = Ok (d1, w1) ∧
    provision v2 scope2 props2 headers2 w1 = Ok (d2, w2) ∧
    d1 ≠ d2 ∧
    ∀ id, id ∈ idsNeeded v1 props1 headers1 →
      is_Some (tree w1 !! (scope1 ++ [id])) ∧
      tree w2 !! (scope1 ++ [id]) = tree w1 !! (scope1 ++ [id]).
Proof.
  intros Hready1 Hready2 Hscope.
  eexists _, _, _, _. split; [by apply provision_run|].
  split; [by apply provision_run, ready_elsewhere|].
  split.
  { intros Heq. apply app_inj_tail in Heq as [Heq _]. by destruct Hscope. }
  intros id Hid. split; [by apply registered_is_there|].
  apply provisioned_elsewhere.
  - intros (id' & Heq & _)%list_elem_of_fmap.
    apply app_inj_tail in Heq as [Heq _]. by destruct Hscope.
  - destruct v2 as [apiEndPoint | sourceBucket]; cbn [policyOf];
      [apply not_elem_of_nil|].
    intros Heq%list_elem_of_singleton. apply app_inj_tail in Heq as [_ ->].
    by apply policy_never_needed in Hid.
Qed.

(** X7. Two distributions in different scopes can front one bucket: both
    calls return, the policy of the bucket keeps the statements it had at
    its head and holds the two grants, each to the identity of its own
    scope, in the order of the calls and the second one last, and the
    policy resource carries the F16 suppression once. Statements the
    framework's constructor of a distribution puts on the policy itself
    would stand before the grant of its call. *)
Theorem two_distributions_one_bucket (scope1 scope2 sourceBucket : path)
    (props1 props2 : option (gmap string value)) (headers1 headers2 : value)
    (w : world) :
  ready (ForS3 sourceBucket) scope1 props1 headers1 w = true →
  ready (ForS3 sourceBucket) scope2 props2 headers2 w = true →
  scope1 ≠ scope2 →
  let grant := fun scope : path =>
    {| actions := ["s3:GetObject"];
       resources := [TArnForObjects sourceBucket "*"];
       principals :=
         [CanonicalUserPrincipal
            (TAttr (scope ++ ["CloudFrontOriginAccessIdentity"]) "S3CanonicalUserId")] |} in
  ∃ d1 w1 d2 w2 pol between1 between2,
    CloudFrontDistributionForS3 scope1 sourceBucket props1 headers1 w = Ok (d1, w1) ∧
    CloudFrontDistributionForS3 scope2 sourceBucket props2 headers2 w1 = Ok (d2, w2) ∧
    d1 ≠ d2 ∧
    tree w2 !! (sourceBucket ++ ["Policy"]) = Some pol ∧
    document pol
    = from_option document [] (tree w !! (sourceBucket ++ ["Policy"]))
      ++ between1 ++ [grant scope1] ++ between2 ++ [grant scope2] ∧
    suppressions (cfnMetadata (defaultChild pol)) = [(VStr "F16", VStr f16Reason)].
Proof.
  intros Hready1 Hready2 Hscope. cbv zeta.
  eexists _, _, _, _, _, [], [].
  split; [exact (provision_run (ForS3 sourceBucket) _ _ _ _ Hready1)|].
  split.
  { apply (provision_run (ForS3 sourceBucket)).
    by apply (ready_elsewhere (ForS3 sourceBucket) (ForS3 sourceBucket)). }
  split.
  { intros Heq. apply app_inj_tail in Heq as [Heq _]. by destruct Hscope. }
  split; [apply s3World_policy|].
  cbn [provisioned]. rewrite s3World_policy.
  destruct (tree w !! (sourceBucket ++ ["Policy"])) as [pol0|];
    cbn [grantedPolicy document from_option app]; rewrite <- ?app_assoc; by split.
Qed.

(** * The annotations and the overrides *)

(** X9. The logging bucket a call creates has the default bucket
    properties as they are, the one override of [AccessControl], no policy
    document, and exactly two suppressions, W35 and W51, with one and the
    same reason. *)
Theorem logging_bucket_as_created (v : variant) (scope : path)
    (cloudFrontDistributionProps : option (gmap string value))
    (httpSecurityHeaders : value) (w : world) :
  ready v scope cloudFrontDistributionProps httpSecurityHeaders w = true →
  truthy (loggingConfigOf cloudFrontDistributionProps) = false →
  ∃ d w' b,
    provision v scope cloudFrontDistributionProps httpSecurityHeaders w = Ok (d, w') ∧
    tree w !! (scope ++ ["CloudfrontLoggingBucket"]) = None ∧
    tree w' !! (scope ++ ["CloudfrontLoggingBucket"]) = Some b ∧
    kind_of b = KBucket ∧
    props b = DefaultS3Props ∧
    document b = [] ∧
    rawOverrides (defaultChild b)
    = [(["Properties"; "AccessControl"], VStr "LogDeliveryWrite")] ∧
    suppressions (cfnMetadata (defaultChild b))
    = [(VStr "W35", VStr loggingBucketReason); (VStr "W51", VStr loggingBucketReason)] ∧
    loggingBucketReason ≠ "".
Proof.
  intros Hready Hnone. eexists _, _, _. split; [by apply provision_run|].
  split.
  { apply andb_prop in Hready as [Hfree _].
    apply idsNeeded_free in Hfree as (_ & _ & Hl & _). by apply Hl. }
  split; [by apply provisioned_loggingBucket|].
  repeat split. discriminate.
Qed.

Lemma toCloudFormation_plain (rendered : gmap string value) (md : value) :
  md ≠ VUndefined →
  toCloudFormation rendered {| cfnMetadata := md; rawOverrides := [] |}
  = {[ "Properties" := VObj rendered; "Metadata" := md ]}.
Proof. intros Hmd. unfold toCloudFormation. cbn [foldl cfnMetadata rawOverrides]. by destruct md. Qed.

(** X11. Synthesis of the three resources the helper patches: each
    override changes one property and no other. Whatever metadata the
    function resource carries, its properties are the rendered ones without
    [Environment]; the logging bucket gets [AccessControl], keeps every
    other property and has the two suppressions as its metadata; the
    properties of the distribution are as rendered, and its metadata is
    the W70 suppression. *)
Theorem overrides_touch_one_property (v : variant) (scope : path)
    (cloudFrontDistributionProps : option (gmap string value))
    (httpSecurityHeaders : value) (w : world) :
  ready v scope cloudFrontDistributionProps httpSecurityHeaders w = true →
  ∃ d w' c,
    provision v scope cloudFrontDistributionProps httpSecurityHeaders w = Ok (d, w') ∧
    tree w' !! d = Some c ∧
    (∀ rendered : gmap string value,
       toCloudFormation rendered (defaultChild c)
       = {[ "Properties" := VObj rendered; "Metadata" := w70Metadata ]}) ∧
    (truthy (headerInjection v httpSecurityHeaders) = true →
     ∃ fn, tree w' !! (scope ++ ["SetHttpSecurityHeaders"]) = Some fn ∧
       ∀ (rendered : gmap string value) (metadata : value),
         propertiesOf
           (toCloudFormation rendered
              {| cfnMetadata := metadata;
                 rawOverrides := rawOverrides (defaultChild fn) |})
         = delete "Environment" rendered) ∧
    (truthy (loggingConfigOf cloudFrontDistributionProps) = false →
     ∃ b, tree w' !! (scope ++ ["CloudfrontLoggingBucket"]) = Some b ∧
       ∀ rendered : gmap string value,
         toCloudFormation rendered (defaultChild b)
         = {[ "Properties" :=
                VObj (<["AccessControl" := VStr "LogDeliveryWrite"]> rendered);
              "Metadata" := loggingBucketMetadata ]}).
Proof.
  intros Hready. eexists _, _, _. split; [by apply provision_run|].
  split; [apply provisioned_distribution|].
  split; [intros rendered; by apply toCloudFormation_plain|].
  split.
  - intros Hon. exists edgeFunctionConstruct.
    split; [by apply provisioned_function|]. intros rendered metadata.
    unfold toCloudFormation, propertiesOf.
    cbn [edgeFunctionConstruct defaultChild rawOverrides cfnMetadata foldl fst snd
         applyOverride withChild mkConstruct emptyResource].
    rewrite lookup_insert_eq. cbn [default from_option id asObject].
    rewrite lookup_insert_eq. reflexivity.
  - intros Hnone. exists loggingBucketConstruct.
    split; [by apply provisioned_loggingBucket|]. intros rendered.
    unfold toCloudFormation.
    cbn [loggingBucketConstruct defaultChild rawOverrides cfnMetadata foldl fst snd
         applyOverride].
    rewrite lookup_insert_eq. cbn [default from_option id asObject].
    by rewrite insert_insert_eq.
Qed.

(** X12. The API variant injects the headers whatever it is given as
    [httpSecurityHeaders], the boolean [false] included: the resolved flag
    is the argument when the argument is truthy and [true] otherwise, and
    every ready call creates the edge function and its version. *)
Theorem api_always_injects (scope apiEndPoint : path)
    (cloudFrontDistributionProps : option (gmap string value))
    (httpSecurityHeaders : value) (w : world) :
  ready (ForApiGateway apiEndPoint) scope cloudFrontDistributionProps
    httpSecurityHeaders w = true →
  ∃ d w',
    CloudFrontDistributionForApiGateway scope apiEndPoint
      cloudFrontDistributionProps httpSecurityHeaders w = Ok (d, w') ∧
    apiHttpSecurityHeaders httpSecurityHeaders
    = (if truthy httpSecurityHeaders then httpSecurityHeaders else VBool true) ∧
    truthy (apiHttpSecurityHeaders httpSecurityHeaders) = true ∧
    created KFunction (since w w') = [scope ++ ["SetHttpSecurityHeaders"]] ∧
    created KVersion (since w w') = [scope ++ ["SetHttpSecurityHeadersVersion"]] ∧
    tree w !! (scope ++ ["SetHttpSecurityHeaders"]) = None ∧
    is_Some (tree w' !! (scope ++ ["SetHttpSecurityHeaders"])).
Proof.
  intros Hready.
  pose proof (apiHttpSecurityHeaders_truthy httpSecurityHeaders) as Hon.
  eexists _, _.
  split; [exact (provision_run (ForApiGateway apiEndPoint) _ _ _ _ Hready)|].
  change (apiGatewayWorld scope apiEndPoint cloudFrontDistributionProps
            httpSecurityHeaders w)
    with (provisioned (ForApiGateway apiEndPoint) scope cloudFrontDistributionProps
            httpSecurityHeaders w).
  rewrite created_function_run, created_version_run. cbn [headerInjection].
  rewrite Hon. split; [reflexivity|]. split; [reflexivity|].
  split; [reflexivity|]. split; [reflexivity|]. split.
  - apply andb_prop in Hready as [Hfree _].
    apply idsNeeded_free in Hfree as (_ & Hedge & _). by apply Hedge.
  - rewrite (provisioned_function (ForApiGateway apiEndPoint)) by exact Hon. eauto.
Qed.

(** X13. [updateSecurityPolicy] is idempotent on the tree: applied again to
    the distribution it returned, it returns the same distribution and the
    same tree. *)
Theorem updateSecurityPolicy_idempotent (cfDistribution : path) (c : Construct)
    (w : world) :
  tree w !! cfDistribution = Some c →
  ∃ d w1 w2,
    updateSecurityPolicy cfDistribution w = Ok (d, w1) ∧
    updateSecurityPolicy d w1 = Ok (d, w2) ∧
    tree w2 = tree w1 ∧
    journal w2 = journal w1 ++ [MetadataSet d].
Proof.
  intros Hc. eexists _, _, _. split; [by apply updateSecurityPolicy_run|].
  split; [apply updateSecurityPolicy_run; cbn [tree]; apply lookup_insert_eq|].
  cbn [tree journal]. by rewrite insert_insert_eq.
Qed.

(** X14. Leaving [httpSecurityHeaders] out is the same as passing [true],
    for both entry points; for the storage variant so is every argument
    other than [false], for the API variant every falsy argument. *)
Theorem default_headers_is_true (v : variant) (scope : path)
    (cloudFrontDistributionProps : option (gmap string value))
    (httpSecurityHeaders : value) (w : world) :
  match v with
  | ForApiGateway _ => truthy httpSecurityHeaders = false
  | ForS3 _ => httpSecurityHeaders ≠ VBool false
  end →
  headerInjection v httpSecurityHeaders = VBool true ∧
  provision v scope cloudFrontDistributionProps httpSecurityHeaders w
  = provision v scope cloudFrontDistributionProps (VBool true) w ∧
  provision v scope cloudFrontDistributionProps VUndefined w
  = provision v scope cloudFrontDistributionProps (VBool true) w.
Proof.
  destruct v as [apiEndPoint | sourceBucket]; cbn [provision headerInjection].
  - intros Hfalsy.
    assert (apiHttpSecurityHeaders httpSecurityHeaders = VBool true) as Hflag
      by (unfold apiHttpSecurityHeaders; by rewrite Hfalsy).
    split; [exact Hflag|]. split; [|reflexivity].
    unfold CloudFrontDistributionForApiGateway. cbv zeta. by rewrite Hflag.
  - intros Hne. pose proof (s3HttpSecurityHeaders_true _ Hne) as Hflag.
    split; [exact Hflag|]. split; [|reflexivity].
    unfold CloudFrontDistributionForS3. cbv zeta. by rewrite Hflag.
Qed.

End Provisioner.

(** * The properties at sample inputs *)

(** C1, counterexample. The API variant is called without
    [httpSecurityHeaders], which is falsy: an edge function is created and
    its version sits on the default behavior of the distribution. *)
Lemma api_undefined_headers_creates_edge_function :
  truthy VUndefined = false ∧
  ∃ d w' c cfg,
    CloudFrontDistributionForApiGateway sampleS3Props sampleFixedDefaults
      ["Stack"] ["Stack"; "Api"] None VUndefined siteWorld = Ok (d, w') ∧
    created KFunction (since siteWorld w') = [["Stack"; "SetHttpSecurityHeaders"]] ∧
    tree w' !! d = Some c ∧
    props c = VObj cfg ∧
    attachedEdgeVersions cfg = [VRef ["Stack"; "SetHttpSecurityHeadersVersion"]].
Proof.
  split; [reflexivity|].
  eexists _, _, _, _.
  split; [apply CloudFrontDistributionForApiGateway_run; vm_compute; reflexivity|].
  split; [vm_compute; reflexivity|].
  split; [apply (provisioned_distribution _ _ (ForApiGateway _))|].
  split; [reflexivity|].
  vm_compute. reflexivity.
Qed.

(** C1, witness: [0] is falsy and is not [false]. *)
Lemma api_falsy_headers_still_injected_witness :
  ready (ForApiGateway ["Stack"; "Api"]) ["Stack"] None (VNum 0) siteWorld = true ∧
  truthy (VNum 0) = false ∧
  VNum 0 ≠ VBool false ∧
  ∃ d w',
    CloudFrontDistributionForApiGateway sampleS3Props sampleFixedDefaults
      ["Stack"] ["Stack"; "Api"] None (VNum 0) siteWorld = Ok (d, w') ∧
    created KFunction (since siteWorld w') = [["Stack"; "SetHttpSecurityHeaders"]] ∧
    created KVersion (since siteWorld w')
    = [["Stack"; "SetHttpSecurityHeadersVersion"]] ∧
    attachedEdgeVersions
      (apiGatewayDefaults sampleFixedDefaults ["Stack"] ["Stack"; "Api"] None (VNum 0))
    = [VRef ["Stack"; "SetHttpSecurityHeadersVersion"]] ∧
    (userValue None "originConfigs" = None →
     ∃ c cfg, tree w' !! d = Some c ∧ props c = VObj cfg ∧
       attachedEdgeVersions cfg = [VRef ["Stack"; "SetHttpSecurityHeadersVersion"]]).
Proof.
  split; [vm_compute; reflexivity|].
  split; [reflexivity|].
  split; [discriminate|].
  apply (api_falsy_headers_still_injected sampleS3Props sampleFixedDefaults
           ["Stack"] ["Stack"; "Api"] None (VNum 0) siteWorld).
  - vm_compute; reflexivity.
  - reflexivity.
  - discriminate.
Defined.

(** C2, at the failing input. The caller's logging configuration names a
    prefix and no bucket. The guard of the entry point tests [loggingConfig],
    not [loggingConfig.bucket]: [createCloudfrontLoggingBucket] is not
    called, so the scope gets no [CloudfrontLoggingBucket] and no resource
    gets the [AccessControl] override, and the distribution is configured
    with a logging configuration that names no bucket. *)
Lemma prefix_only_loggingConfig_skips_logging_bucket :
  truthy (loggingConfigOf (Some prefixOnly)) = true ∧
  getProp (loggingConfigOf (Some prefixOnly)) "bucket" = VUndefined ∧
  ∃ d w' c cfg,
    CloudFrontDistributionForApiGateway sampleS3Props sampleFixedDefaults
      ["Stack"] ["Stack"; "Api"] (Some prefixOnly) VUndefined siteWorld
    = Ok (d, w') ∧
    tree w' !! ["Stack"; "CloudfrontLoggingBucket"] = None ∧
    overridden ["Properties"; "AccessControl"] (since siteWorld w') = [] ∧
    tree w' !! d = Some c ∧
    props c = VObj cfg ∧
    logDestination cfg = VUndefined.
Proof.
  split; [vm_compute; reflexivity|].
  split; [vm_compute; reflexivity|].
  eexists _, _, _, _.
  split; [apply CloudFrontDistributionForApiGateway_run; vm_compute; reflexivity|].
  split; [vm_compute; reflexivity|].
  split; [vm_compute; reflexivity|].
  split; [apply (provisioned_distribution _ _ (ForApiGateway _))|].
  split; [reflexivity|].
  vm_compute; reflexivity.
Qed.

(** The same at a sample input: the storage variant without a caller
    object. *)
Lemma logging_bucket_created_without_loggingConfig_witness :
  ready (ForS3 ["Stack"; "Site"]) ["Stack"] None VUndefined siteWorld = true ∧
  truthy (loggingConfigOf None) = false ∧
  ∃ d w',
    provision sampleS3Props sampleFixedDefaults (ForS3 ["Stack"; "Site"]) ["Stack"]
      None VUndefined siteWorld = Ok (d, w') ∧
    created KBucket (since siteWorld w') = [["Stack"; "CloudfrontLoggingBucket"]] ∧
    ∃ b, tree w' !! ["Stack"; "CloudfrontLoggingBucket"] = Some b ∧
      kind_of b = KBucket ∧
      ∀ rendered : gmap string value,
        propertiesOf (toCloudFormation rendered (defaultChild b)) !! "AccessControl"
        = Some (VStr "LogDeliveryWrite").
Proof.
  split; [vm_compute; reflexivity|].
  split; [reflexivity|].
  apply (logging_bucket_created_without_loggingConfig sampleS3Props
           sampleFixedDefaults (ForS3 ["Stack"; "Site"]) ["Stack"] None VUndefined
           siteWorld).
  - vm_compute; reflexivity.
  - reflexivity.
Defined.

(** C5, counterexample. The caller has no logging configuration but
    origins of its own: the origin of the distribution is the caller's
    custom origin, without bucket and without identity. *)
Lemma s3_origin_overridden_by_caller :
  userValue (Some ownOrigins) "loggingConfig" = None ∧
  ∃ d w' c cfg,
    CloudFrontDistributionForS3 sampleS3Props sampleFixedDefaults
      ["Stack"] ["Stack"; "Site"] (Some ownOrigins) VUndefined siteWorld
    = Ok (d, w') ∧
    tree w' !! d = Some c ∧
    props c = VObj cfg ∧
    s3Origins cfg = [(VUndefined, VUndefined)].
Proof.
  split; [vm_compute; reflexivity|].
  eexists _, _, _, _.
  split; [apply CloudFrontDistributionForS3_run; vm_compute; reflexivity|].
  split; [apply (provisioned_distribution _ _ (ForS3 _))|].
  split; [reflexivity|].
  vm_compute. reflexivity.
Qed.

(** C5, witness: a bucket that already has a policy, with a statement and
    with metadata of its own. *)
Lemma s3_scenario_without_logging_config_witness :
  ready (ForS3 ["Stack"; "Assets"]) ["Stack"] None VUndefined siteWorld = true ∧
  truthy (loggingConfigOf None) = false ∧
  ∃ d w',
    CloudFrontDistributionForS3 sampleS3Props sampleFixedDefaults
      ["Stack"] ["Stack"; "Assets"] None VUndefined siteWorld = Ok (d, w') ∧
    created KBucket (since siteWorld w') = [["Stack"; "CloudfrontLoggingBucket"]] ∧
    (∃ pol earlier,
       tree w' !! ["Stack"; "Assets"; "Policy"] = Some pol ∧
       document pol
       = earlier ++
         [{| actions := ["s3:GetObject"];
             resources := [TArnForObjects ["Stack"; "Assets"] "*"];
             principals :=
               [CanonicalUserPrincipal
                  (TAttr ["Stack"; "CloudFrontOriginAccessIdentity"]
                     "S3CanonicalUserId")] |}] ∧
       suppressions (cfnMetadata (defaultChild pol)) = [(VStr "F16", VStr f16Reason)] ∧
       f16Reason ≠ "").
Proof.
  split; [vm_compute; reflexivity|].
  split; [reflexivity|].
  destruct (s3_scenario_without_logging_config sampleS3Props sampleFixedDefaults
              ["Stack"] ["Stack"; "Assets"] None VUndefined siteWorld)
    as (d & w' & Hrun & _ & _ & _ & _ & _ & Hbucket & _ & Hpolicy & _).
  - vm_compute; reflexivity.
  - reflexivity.
  - exists d, w'. split; [exact Hrun|]. split; [exact Hbucket|]. exact Hpolicy.
Defined.

(** C6, witness: the storage variant, logging to the caller's bucket, with
    header injection switched off. *)
Lemma distribution_carries_one_W70_witness :
  ready (ForS3 ["Stack"; "Site"]) ["Stack"] (Some ownLogs) (VBool false) siteWorld
  = true ∧
  ∃ d w' c,
    provision sampleS3Props sampleFixedDefaults (ForS3 ["Stack"; "Site"]) ["Stack"]
      (Some ownLogs) (VBool false) siteWorld = Ok (d, w') ∧
    tree w' !! d = Some c ∧
    kind_of c = KDistribution ∧
    suppressions (cfnMetadata (defaultChild c)) = [(VStr "W70", VStr w70Reason)] ∧
    w70Reason ≠ "".
Proof.
  split; [vm_compute; reflexivity|].
  apply (distribution_carries_one_W70 sampleS3Props sampleFixedDefaults
           (ForS3 ["Stack"; "Site"]) ["Stack"] (Some ownLogs) (VBool false) siteWorld).
  vm_compute; reflexivity.
Defined.

(** C7, witness: the storage variant with [httpSecurityHeaders] [0], which
    is not [false]. *)
Lemma header_injection_creates_one_function_and_version_witness :
  ready (ForS3 ["Stack"; "Site"]) ["Stack"] None (VNum 0) siteWorld = true ∧
  truthy (headerInjection (ForS3 ["Stack"; "Site"]) (VNum 0)) = true ∧
  truthy (headerInjection (ForS3 ["Stack"; "Site"]) VUndefined) = true ∧
  ∃ d w',
    provision sampleS3Props sampleFixedDefaults (ForS3 ["Stack"; "Site"]) ["Stack"]
      None (VNum 0) siteWorld = Ok (d, w') ∧
    created KFunction (since siteWorld w') = [["Stack"; "SetHttpSecurityHeaders"]] ∧
    created KVersion (since siteWorld w')
    = [["Stack"; "SetHttpSecurityHeadersVersion"]] ∧
    tree w' !! ["Stack"; "SetHttpSecurityHeadersVersion"]
    = Some (mkConstruct KVersion
              (VObj {[ "lambda" := VRef ["Stack"; "SetHttpSecurityHeaders"] ]})) ∧
    ∃ fn, tree w' !! ["Stack"; "SetHttpSecurityHeaders"] = Some fn ∧
      kind_of fn = KFunction ∧
      ∀ rendered : gmap string value,
        propertiesOf (toCloudFormation rendered (defaultChild fn)) !! "Environment"
        = None.
Proof.
  split; [vm_compute; reflexivity|].
  split; [reflexivity|].
  apply (header_injection_creates_one_function_and_version sampleS3Props
           sampleFixedDefaults (ForS3 ["Stack"; "Site"]) ["Stack"] None (VNum 0)
           siteWorld).
  - vm_compute; reflexivity.
  - reflexivity.
Defined.

(** C8, counterexample. Header injection is switched off, and the caller's
    own origins carry a function version on the default behavior: so does
    the distribution. *)
Lemma s3_caller_attaches_own_version :
  ∃ d w' c cfg,
    CloudFrontDistributionForS3 sampleS3Props sampleFixedDefaults
      ["Stack"] ["Stack"; "Site"] (Some ownOrigins) (VBool false) siteWorld
    = Ok (d, w') ∧
    created KFunction (since siteWorld w') = [] ∧
    tree w' !! d = Some c ∧
    props c = VObj cfg ∧
    attachedEdgeVersions cfg = [VRef ["Stack"; "Rewrite"; "CurrentVersion"]].
Proof.
  eexists _, _, _, _.
  split; [apply CloudFrontDistributionForS3_run; vm_compute; reflexivity|].
  split; [vm_compute; reflexivity|].
  split; [apply (provisioned_distribution _ _ (ForS3 _))|].
  split; [reflexivity|].
  vm_compute. reflexivity.
Qed.

(** C8, witness: header injection switched off, no caller object. *)
Lemma s3_headers_disabled_only_by_false_witness :
  ready (ForS3 ["Stack"; "Site"]) ["Stack"] None (VBool false) siteWorld = true ∧
  ∃ d w',
    CloudFrontDistributionForS3 sampleS3Props sampleFixedDefaults
      ["Stack"] ["Stack"; "Site"] None (VBool false) siteWorld = Ok (d, w') ∧
    created KFunction (since siteWorld w') = [] ∧
    created KVersion (since siteWorld w') = [] ∧
    ∃ c cfg, tree w' !! d = Some c ∧ props c = VObj cfg ∧
      attachedEdgeVersions cfg = [].
Proof.
  split; [vm_compute; reflexivity|].
  destruct (s3_headers_disabled_only_by_false sampleS3Props sampleFixedDefaults
              ["Stack"] ["Stack"; "Site"] None (VBool false) siteWorld)
    as (d & w' & Hrun & Hoff & _).
  - vm_compute; reflexivity.
  - destruct (Hoff eq_refl) as (Hfn & Hversion & _ & Hdistribution).
    exists d, w'. split; [exact Hrun|]. split; [exact Hfn|].
    split; [exact Hversion|]. exact (Hdistribution eq_refl).
Defined.

(** C9, witness: the API variant, logging to the caller's bucket. *)
Lemma caller_logging_bucket_is_used_witness :
  ready (ForApiGateway ["Stack"; "Api"]) ["Stack"] (Some ownLogs) VUndefined siteWorld
  = true ∧
  ownLogs !! "loggingConfig" = Some (VObj {[ "bucket" := VRef ["Stack"; "Site"] ]}) ∧
  ({[ "bucket" := VRef ["Stack"; "Site"] ]} : gmap string value) !! "bucket"
  = Some (VRef ["Stack"; "Site"]) ∧
  ∃ d w' c cfg,
    provision sampleS3Props sampleFixedDefaults (ForApiGateway ["Stack"; "Api"])
      ["Stack"] (Some ownLogs) VUndefined siteWorld = Ok (d, w') ∧
    created KBucket (since siteWorld w') = [] ∧
    tree w' !! d = Some c ∧
    kind_of c = KDistribution ∧
    props c = VObj cfg ∧
    logDestination cfg = VRef ["Stack"; "Site"].
Proof.
  split; [vm_compute; reflexivity|].
  split; [vm_compute; reflexivity|].
  split; [vm_compute; reflexivity|].
  apply (caller_logging_bucket_is_used sampleS3Props sampleFixedDefaults
           (ForApiGateway ["Stack"; "Api"]) ["Stack"] ownLogs
           {[ "bucket" := VRef ["Stack"; "Site"] ]} (VRef ["Stack"; "Site"])
           VUndefined siteWorld).
  - vm_compute; reflexivity.
  - vm_compute; reflexivity.
  - vm_compute; reflexivity.
Defined.

(** C10, witness: a distribution whose resource has metadata and an
    override of its own. *)
Lemma updateSecurityPolicy_frame_witness :
  tree siteWorld !! ["Stack"; "Old"] = Some oldDistribution ∧
  cfnMetadata (defaultChild oldDistribution) = VObj {[ "owner" := VStr "web" ]} ∧
  ∃ w' c',
    updateSecurityPolicy ["Stack"; "Old"] siteWorld = Ok (["Stack"; "Old"], w') ∧
    tree w' !! ["Stack"; "Old"] = Some c' ∧
    cfnMetadata (defaultChild c') = w70Metadata ∧
    suppressions (cfnMetadata (defaultChild c')) = [(VStr "W70", VStr w70Reason)] ∧
    kind_of c' = kind_of oldDistribution ∧
    props c' = props oldDistribution ∧
    document c' = document oldDistribution ∧
    rawOverrides (defaultChild c') = rawOverrides (defaultChild oldDistribution) ∧
    (∀ p, p ≠ ["Stack"; "Old"] → tree w' !! p = tree siteWorld !! p) ∧
    created KDistribution (since siteWorld w') = [] ∧
    since siteWorld w' = [MetadataSet ["Stack"; "Old"]].
Proof.
  split; [vm_compute; reflexivity|]. split; [reflexivity|].
  apply (updateSecurityPolicy_frame ["Stack"; "Old"] oldDistribution siteWorld).
  vm_compute; reflexivity.
Defined.

(** * The merge and the synthesis at sample inputs *)

(** An empty [Environment] block the framework rendered is removed, the
    other properties stay. *)
Example empty_environment_block_is_removed :
  toCloudFormation
    {[ "Handler" := VStr "index.handler"; "Environment" := VObj ∅ ]}
    (defaultChild edgeFunctionConstruct)
  = {[ "Properties" := VObj {[ "Handler" := VStr "index.handler" ]} ]}.
Proof. vm_compute. reflexivity. Qed.

(** Truthiness of the values [httpSecurityHeaders] may take. *)
Example falsy_values :
  map truthy [VUndefined; VNull; VBool false; VNum 0; VStr ""; VBool true; VNum 1; VStr "no"]
  = [false; false; false; false; false; true; true; true].
Proof. reflexivity. Qed.

(** A partial nested object replaces the default nested object entirely:
    the default logging bucket is gone. *)
Example partial_loggingConfig_drops_default_bucket :
  cfprops {[ "loggingConfig" := VObj {[ "bucket" := VRef ["Stack"; "Logs"] ]};
                "comment" := VStr "site" ]}
          (Some prefixOnly)
  = {[ "loggingConfig" := VObj {[ "prefix" := VStr "cdn/" ]};
       "comment" := VStr "site" ]}.
Proof. vm_compute. reflexivity. Qed.

(** The API variant cannot switch header injection off: [false] is
    replaced by [true] like every other falsy value, whereas the storage
    variant honours it. *)
Example api_explicit_false_still_injects :
  apiHttpSecurityHeaders (VBool false) = VBool true ∧
  s3HttpSecurityHeaders (VBool false) = VBool false ∧
  ∃ d w',
    CloudFrontDistributionForApiGateway sampleS3Props sampleFixedDefaults
      ["Stack"] ["Stack"; "Api"] None (VBool false) siteWorld = Ok (d, w') ∧
    created KFunction (since siteWorld w') = [["Stack"; "SetHttpSecurityHeaders"]].
Proof.
  split; [reflexivity|]. split; [reflexivity|].
  eexists _, _.
  split; [apply CloudFrontDistributionForApiGateway_run; vm_compute; reflexivity|].
  vm_compute. reflexivity.
Qed.

(** A scope that already has a child [CloudFrontDistribution] is rejected. *)
Example taken_id_is_rejected :
  ∃ p,
    CloudFrontDistributionForApiGateway sampleS3Props sampleFixedDefaults
      ["Stack"] ["Stack"; "Api"] None VUndefined
      {| tree := {[ ["Stack"; "CloudFrontDistribution"] := mkConstruct KDistribution VNull ]};
         journal := [] |}
    = Err (DuplicateId p).
Proof.
  apply (provision_rejects _ _ (ForApiGateway ["Stack"; "Api"])).
  vm_compute. reflexivity.
Qed.

(** * Further properties at sample inputs *)

(** X1, witness: the stack has a function of the caller under the id the
    edge function would take. *)
Lemma taken_id_throws_witness :
  allFree crowdedWorld ["Stack"] (idsNeeded (ForS3 ["Stack"; "Site"]) None VUndefined)
  = false ∧
  ∃ id,
    id ∈ idsNeeded (ForS3 ["Stack"; "Site"]) None VUndefined ∧
    is_Some (tree crowdedWorld !! (["Stack"] ++ [id])) ∧
    provision sampleS3Props sampleFixedDefaults (ForS3 ["Stack"; "Site"]) ["Stack"]
      None VUndefined crowdedWorld
    = Err (DuplicateId (["Stack"] ++ [id])).
Proof.
  split; [vm_compute; reflexivity|].
  apply (taken_id_throws sampleS3Props sampleFixedDefaults).
  vm_compute; reflexivity.
Defined.

(** X2, witness. *)
Lemma second_call_in_scope_throws_witness :
  ready (ForApiGateway ["Stack"; "Api"]) ["Stack"] None VUndefined siteWorld = true ∧
  ∃ d w',
    provision sampleS3Props sampleFixedDefaults (ForApiGateway ["Stack"; "Api"])
      ["Stack"] None VUndefined siteWorld = Ok (d, w') ∧
    ∃ id,
      provision sampleS3Props sampleFixedDefaults (ForS3 ["Stack"; "Site"])
        ["Stack"] (Some ownLogs) (VBool false) w'
      = Err (DuplicateId (["Stack"] ++ [id])).
Proof.
  split; [vm_compute; reflexivity|].
  destruct (second_call_in_scope_throws sampleS3Props sampleFixedDefaults
              (ForApiGateway ["Stack"; "Api"]) ["Stack"] None VUndefined siteWorld)
    as (d & w' & Hrun & Hnext).
  - vm_compute; reflexivity.
  - exists d, w'. split; [exact Hrun|].
    destruct (Hnext (ForS3 ["Stack"; "Site"]) (Some ownLogs) (VBool false))
      as (id & _ & Hthrow).
    by exists id.
Defined.

(** X5, witness. *)
Lemma returned_distribution_is_new_witness :
  ready (ForApiGateway ["Stack"; "Api"]) ["Stack"] None VUndefined siteWorld = true ∧
  ∃ d w' c,
    provision sampleS3Props sampleFixedDefaults (ForApiGateway ["Stack"; "Api"])
      ["Stack"] None VUndefined siteWorld = Ok (d, w') ∧
    d = ["Stack"; "CloudFrontDistribution"] ∧
    tree siteWorld !! d = None ∧
    tree w' !! d = Some c ∧
    kind_of c = KDistribution ∧
    created KDistribution (since siteWorld w') = [d].
Proof.
  split; [vm_compute; reflexivity|].
  destruct (returned_distribution_is_new sampleS3Props sampleFixedDefaults
              (ForApiGateway ["Stack"; "Api"]) ["Stack"] None VUndefined siteWorld)
    as (d & w' & c & Hrun & Hd & Hnew & Hc & Hk & Hone & _).
  - vm_compute; reflexivity.
  - exists d, w', c. repeat split; assumption.
Defined.

(** X6, witness: a bucket whose policy has a statement and metadata. *)
Lemma grant_extends_policy_witness :
  ready (ForS3 ["Stack"; "Assets"]) ["Stack"] None VUndefined siteWorld = true ∧
  ∃ d w' pol between,
    CloudFrontDistributionForS3 sampleS3Props sampleFixedDefaults
      ["Stack"] ["Stack"; "Assets"] None VUndefined siteWorld = Ok (d, w') ∧
    tree w' !! ["Stack"; "Assets"; "Policy"] = Some pol ∧
    document pol
    = [{| actions := ["s3:PutObject"];
          resources := [TArnForObjects ["Stack"; "Assets"] "uploads/*"];
          principals := [AnyPrincipal] |}]
      ++ between
      ++ [{| actions := ["s3:GetObject"];
             resources := [TArnForObjects ["Stack"; "Assets"] "*"];
             principals :=
               [CanonicalUserPrincipal
                  (TAttr ["Stack"; "CloudFrontOriginAccessIdentity"]
                     "S3CanonicalUserId")] |}] ∧
    cfnMetadata (defaultChild pol) = f16Metadata.
Proof.
  split; [vm_compute; reflexivity|].
  destruct (grant_extends_policy sampleS3Props sampleFixedDefaults
              ["Stack"] ["Stack"; "Assets"] None VUndefined siteWorld)
    as (d & w' & pol & between & Hrun & Hpol & Hdoc & _ & Hmd).
  - vm_compute; reflexivity.
  - exists d, w', pol, between. split; [exact Hrun|]. split; [exact Hpol|].
    split; [rewrite Hdoc; vm_compute; reflexivity|]. exact Hmd.
Defined.

(** X7, witness: the site bucket behind a distribution of the stack and
    behind one of a nested scope. *)
Lemma two_distributions_one_bucket_witness :
  ready (ForS3 ["Stack"; "Site"]) ["Stack"] None VUndefined siteWorld = true ∧
  ready (ForS3 ["Stack"; "Site"]) ["Stack"; "Mirror"] None (VBool false) siteWorld
  = true ∧
  ["Stack"] ≠ ["Stack"; "Mirror"] ∧
  ∃ d1 w1 d2 w2 pol between1 between2,
    CloudFrontDistributionForS3 sampleS3Props sampleFixedDefaults
      ["Stack"] ["Stack"; "Site"] None VUndefined siteWorld = Ok (d1, w1) ∧
    CloudFrontDistributionForS3 sampleS3Props sampleFixedDefaults
      ["Stack"; "Mirror"] ["Stack"; "Site"] None (VBool false) w1 = Ok (d2, w2) ∧
    tree w2 !! ["Stack"; "Site"; "Policy"] = Some pol ∧
    document pol
    = between1
      ++ [{| actions := ["s3:GetObject"];
             resources := [TArnForObjects ["Stack"; "Site"] "*"];
             principals :=
               [CanonicalUserPrincipal
                  (TAttr ["Stack"; "CloudFrontOriginAccessIdentity"]
                     "S3CanonicalUserId")] |}]
      ++ between2
      ++ [{| actions := ["s3:GetObject"];
             resources := [TArnForObjects ["Stack"; "Site"] "*"];
             principals :=
               [CanonicalUserPrincipal
                  (TAttr ["Stack"; "Mirror"; "CloudFrontOriginAccessIdentity"]
                     "S3CanonicalUserId")] |}] ∧
    suppressions (cfnMetadata (defaultChild pol)) = [(VStr "F16", VStr f16Reason)].
Proof.
  split; [vm_compute; reflexivity|]. split; [vm_compute; reflexivity|].
  split; [discriminate|].
  destruct (two_distributions_one_bucket sampleS3Props sampleFixedDefaults
              ["Stack"] ["Stack"; "Mirror"] ["Stack"; "Site"] None None
              VUndefined (VBool false) siteWorld)
    as (d1 & w1 & d2 & w2 & pol & between1 & between2
        & Hrun1 & Hrun2 & _ & Hpol & Hdoc & Hmd).
  - vm_compute; reflexivity.
  - vm_compute; reflexivity.
  - discriminate.
  - exists d1, w1, d2, w2, pol, between1, between2.
    split; [exact Hrun1|]. split; [exact Hrun2|].
    split; [exact Hpol|]. split; [rewrite Hdoc; vm_compute; reflexivity|]. exact Hmd.
Defined.

(** X8, witness: an API distribution in the stack, then a storage
    distribution in a nested scope. *)
Lemma calls_in_other_scopes_compose_witness :
  ready (ForApiGateway ["Stack"; "Api"]) ["Stack"] None VUndefined siteWorld = true ∧
  ready (ForS3 ["Stack"; "Site"]) ["Stack"; "Mirror"] None (VBool false) siteWorld
  = true ∧
  ["Stack"] ≠ ["Stack"; "Mirror"] ∧
  ∃ d1 w1 d2 w2,
    provision sampleS3Props sampleFixedDefaults (ForApiGateway ["Stack"; "Api"])
      ["Stack"] None VUndefined siteWorld = Ok (d1, w1) ∧
    provision sampleS3Props sampleFixedDefaults (ForS3 ["Stack"; "Site"])
      ["Stack"; "Mirror"] None (VBool false) w1 = Ok (d2, w2) ∧
    d1 ≠ d2 ∧
    tree w2 !! ["Stack"; "CloudFrontDistribution"]
    = tree w1 !! ["Stack"; "CloudFrontDistribution"].
Proof.
  split; [vm_compute; reflexivity|]. split; [vm_compute; reflexivity|].
  split; [discriminate|].
  destruct (calls_in_other_scopes_compose sampleS3Props sampleFixedDefaults
              (ForApiGateway ["Stack"; "Api"]) (ForS3 ["Stack"; "Site"])
              ["Stack"] ["Stack"; "Mirror"] None None VUndefined (VBool false)
              siteWorld)
    as (d1 & w1 & d2 & w2 & Hrun1 & Hrun2 & Hne & Hsame).
  - vm_compute; reflexivity.
  - vm_compute; reflexivity.
  - discriminate.
  - exists d1, w1, d2, w2. split; [exact Hrun1|]. split; [exact Hrun2|].
    split; [exact Hne|].
    apply (Hsame "CloudFrontDistribution"), distribution_always_needed.
Defined.

(** X9, witness. *)
Lemma logging_bucket_as_created_witness :
  ready (ForApiGateway ["Stack"; "Api"]) ["Stack"] None VUndefined siteWorld = true ∧
  truthy (loggingConfigOf None) = false ∧
  ∃ d w' b,
    provision sampleS3Props sampleFixedDefaults (ForApiGateway ["Stack"; "Api"])
      ["Stack"] None VUndefined siteWorld = Ok (d, w') ∧
    tree w' !! ["Stack"; "CloudfrontLoggingBucket"] = Some b ∧
    props b = sampleS3Props ∧
    suppressions (cfnMetadata (defaultChild b))
    = [(VStr "W35", VStr loggingBucketReason); (VStr "W51", VStr loggingBucketReason)].
Proof.
  split; [vm_compute; reflexivity|]. split; [reflexivity|].
  destruct (logging_bucket_as_created sampleS3Props sampleFixedDefaults
              (ForApiGateway ["Stack"; "Api"]) ["Stack"] None VUndefined siteWorld)
    as (d & w' & b & Hrun & _ & Hb & _ & Hprops & _ & _ & Hmd & _).
  - vm_compute; reflexivity.
  - reflexivity.
  - exists d, w', b. repeat split; assumption.
Defined.

(** X11, witness. *)
Lemma overrides_touch_one_property_witness :
  ready (ForApiGateway ["Stack"; "Api"]) ["Stack"] None VUndefined siteWorld = true ∧
  ∃ d w' c fn,
    provision sampleS3Props sampleFixedDefaults (ForApiGateway ["Stack"; "Api"])
      ["Stack"] None VUndefined siteWorld = Ok (d, w') ∧
    tree w' !! d = Some c ∧
    toCloudFormation {[ "Enabled" := VBool true ]} (defaultChild c)
    = {[ "Properties" := VObj {[ "Enabled" := VBool true ]};
         "Metadata" := w70Metadata ]} ∧
    tree w' !! ["Stack"; "SetHttpSecurityHeaders"] = Some fn ∧
    propertiesOf
      (toCloudFormation
         {[ "Handler" := VStr "index.handler"; "Environment" := VObj ∅ ]}
         {| cfnMetadata := VObj {[ "cfn_nag" := VNull ]};
            rawOverrides := rawOverrides (defaultChild fn) |})
    = delete "Environment"
        {[ "Handler" := VStr "index.handler"; "Environment" := VObj ∅ ]}.
Proof.
  split; [vm_compute; reflexivity|].
  destruct (overrides_touch_one_property sampleS3Props sampleFixedDefaults
              (ForApiGateway ["Stack"; "Api"]) ["Stack"] None VUndefined siteWorld)
    as (d & w' & c & Hrun & Hc & Hplain & Hfn & _).
  - vm_compute; reflexivity.
  - destruct Hfn as (fn & Hfn & Hprops); [vm_compute; reflexivity|].
    exists d, w', c, fn. split; [exact Hrun|]. split; [exact Hc|].
    split; [apply Hplain|]. split; [exact Hfn|]. apply Hprops.
Defined.

(** X12, witness: the API variant is told not to inject the headers. *)
Lemma api_always_injects_witness :
  ready (ForApiGateway ["Stack"; "Api"]) ["Stack"] None (VBool false) siteWorld
  = true ∧
  ∃ d w',
    CloudFrontDistributionForApiGateway sampleS3Props sampleFixedDefaults
      ["Stack"] ["Stack"; "Api"] None (VBool false) siteWorld = Ok (d, w') ∧
    created KFunction (since siteWorld w') = [["Stack"; "SetHttpSecurityHeaders"]] ∧
    created KVersion (since siteWorld w')
    = [["Stack"; "SetHttpSecurityHeadersVersion"]].
Proof.
  split; [vm_compute; reflexivity|].
  destruct (api_always_injects sampleS3Props sampleFixedDefaults
              ["Stack"] ["Stack"; "Api"] None (VBool false) siteWorld)
    as (d & w' & Hrun & _ & _ & Hfn & Hversion & _).
  - vm_compute; reflexivity.
  - exists d, w'. repeat split; assumption.
Defined.

(** X13, witness. *)
Lemma updateSecurityPolicy_idempotent_witness :
  tree siteWorld !! ["Stack"; "Old"] = Some oldDistribution ∧
  ∃ d w1 w2,
    updateSecurityPolicy ["Stack"; "Old"] siteWorld = Ok (d, w1) ∧
    updateSecurityPolicy d w1 = Ok (d, w2) ∧
    tree w2 = tree w1 ∧
    journal w2 = journal w1 ++ [MetadataSet d].
Proof.
  split; [vm_compute; reflexivity|].
  apply (updateSecurityPolicy_idempotent ["Stack"; "Old"] oldDistribution siteWorld).
  vm_compute; reflexivity.
Defined.

(** X14, witness: the storage variant with [0], the API variant with
    [false]. *)
Lemma default_headers_is_true_witness :
  VNum 0 ≠ VBool false ∧
  truthy (VBool false) = false ∧
  provision sampleS3Props sampleFixedDefaults (ForS3 ["Stack"; "Site"]) ["Stack"]
    None (VNum 0) siteWorld
  = provision sampleS3Props sampleFixedDefaults (ForS3 ["Stack"; "Site"]) ["Stack"]
      None (VBool true) siteWorld ∧
  provision sampleS3Props sampleFixedDefaults (ForApiGateway ["Stack"; "Api"])
    ["Stack"] None (VBool false) siteWorld
  = provision sampleS3Props sampleFixedDefaults (ForApiGateway ["Stack"; "Api"])
      ["Stack"] None (VBool true) siteWorld.
Proof.
  split; [discriminate|]. split; [reflexivity|]. split.
  - apply (default_headers_is_true sampleS3Props sampleFixedDefaults
             (ForS3 ["Stack"; "Site"]) ["Stack"] None (VNum 0) siteWorld).
    discriminate.
  - apply (default_headers_is_true sampleS3Props sampleFixedDefaults
             (ForApiGateway ["Stack"; "Api"]) ["Stack"] None (VBool false) siteWorld).
    reflexivity.
Defined.
